(** * Lesson-plan workflow (main.py): a shallow embedding and its properties

    The workflow of [main.py] is a graph of stage functions over a
    dictionary-shaped [State].  Stages talk to two collaborators: the
    operator at the terminal ([input]) and the reasoner service reached
    over HTTP ([ReasonerAPI]).  Both are modelled as tapes inside a
    [World] that is threaded through a state-and-exception monad.

    Text is taken to be ASCII: a [string] is a sequence of 8-bit
    characters, [upper]/[lower] change the case of the 26 letters and
    [strip] removes the ASCII characters for which Python's
    [str.isspace] holds.  Where a property depends on what the three
    methods do on other text, it is stated over the module [Generic],
    which has them as a parameter.

    The stage names of a template reply are taken to be a list of
    strings, as [template_stages: List[str]] annotates them;
    [init_template] stores whatever [stages] the reply holds unchecked,
    and a reply whose [stages] is anything else is outside the model. *)

From stdpp Require Import gmap strings list fin_maps.
From Stdlib Require Import ZArith Ascii String.
From Stdlib Require QArith.

Local Open Scope string_scope.
Local Open Scope list_scope.

(** ** Python strings *)

Module PyStr.

Definition is_space (c : ascii) : bool :=
  let n := N_of_ascii c in
  ((9 <=? n) && (n <=? 13) || (28 <=? n) && (n <=? 32))%N.

Definition upper_char (c : ascii) : ascii :=
  let n := N_of_ascii c in
  if ((97 <=? n) && (n <=? 122))%N then ascii_of_N (n - 32) else c.

Definition lower_char (c : ascii) : ascii :=
  let n := N_of_ascii c in
  if ((65 <=? n) && (n <=? 90))%N then ascii_of_N (n + 32) else c.

Fixpoint upper (s : string) : string :=
  match s with
  | EmptyString => EmptyString
  | String c r => String (upper_char c) (upper r)
  end.

Fixpoint lower (s : string) : string :=
  match s with
  | EmptyString => EmptyString
  | String c r => String (lower_char c) (lower r)
  end.

Fixpoint lstrip (s : string) : string :=
  match s with
  | EmptyString => EmptyString
  | String c r => if is_space c then lstrip r else s
  end.

Fixpoint rstrip (s : string) : string :=
  match s with
  | EmptyString => EmptyString
  | String c r =>
      match rstrip r with
      | EmptyString => if is_space c then EmptyString else String c EmptyString
      | r' => String c r'
      end
  end.

Definition strip (s : string) : string := rstrip (lstrip s).

(** Truthiness of a string: [bool(s)]. *)
Definition truthy (s : string) : bool :=
  match s with EmptyString => false | _ => true end.

(** [s.split(sep)] for a one-character separator: always at least one
    field. *)
Fixpoint split (sep : ascii) (s : string) : list string :=
  match s with
  | EmptyString => [EmptyString]
  | String c r =>
      if Ascii.eqb c sep then EmptyString :: split sep r
      else match split sep r with
           | f :: fs => String c f :: fs
           | [] => [String c EmptyString]
           end
  end.

End PyStr.

(** ** JSON values as Python sees them *)

#[warnings="-register-all"]
Inductive pyval : Type :=
  | PNone
  | PBool (b : bool)
  | PInt (z : Z)
  | PFloat (q : QArith_base.Q)
  | PStr (s : string)
  | PList (l : list pyval)
  | PDict (d : list (string * pyval)).

(** Exceptions the workflow can meet; all are subclasses of Python's
    [Exception], so an [except Exception] clause catches each of them. *)
Inductive exn : Type :=
  | HTTPError (status : Z)
  | Timeout
  | ConnectionError
  | JSONDecodeError
  | KeyError (k : string)
  | AttributeError
  | TypeError
  | IndexError
  | EOFError.

Inductive result (A : Type) : Type :=
  | Ok (a : A)
  | Err (e : exn).
Arguments Ok {A} a.
Arguments Err {A} e.

Module Py.

Fixpoint assoc (k : string) (d : list (string * pyval)) : option pyval :=
  match d with
  | [] => None
  | (k', v) :: r => if String.eqb k k' then Some v else assoc k r
  end.

(** [v.get(k, default)]: only a dict has the method. *)
Definition get (v : pyval) (k : string) (default : pyval) : result pyval :=
  match v with
  | PDict d => Ok (from_option id default (assoc k d))
  | _ => Err AttributeError
  end.

End Py.

Module PyIter.

(** What a [for] loop draws from a JSON value: the elements of a list,
    the characters of a string, the keys of a dict; anything else is not
    iterable. *)
Definition iter (v : pyval) : result (list pyval) :=
  match v with
  | PList l => Ok l
  | PStr s => Ok (map (fun c => PStr (String c EmptyString)) (list_ascii_of_string s))
  | PDict d => Ok (map (fun kv => PStr (fst kv)) d)
  | _ => Err TypeError
  end.

End PyIter.

(** ** The state dictionary

    [State] is a [TypedDict] with [total=False]: every key may be absent,
    which the outer [option] of each field records.  Keys annotated
    [Optional[...]] may also hold Python's [None] (the inner [option]).
    The context fields and the recommendation are kept as the raw JSON
    the reasoner sent, since the engine only stores and forwards them. *)

Record State : Type := mkState {
  student_id : option string;
  student_info : option pyval;
  grade : option pyval;
  subject : option pyval;
  slos : option pyval;
  pre_slos : option pyval;
  template_options : option (list string);
  chosen_template : option (option string);
  template_recommendation : option pyval;
  template_stages : option (list string);
  template_approved : option (option bool);
  template_adjustments : option (list string);
  current_stage : option (option string);
  stage_activities : option (gmap string (list pyval));
  is_complete : option bool;
  final_output : option (option pyval)
}.

(** [{**state, key: value}] for each key a stage writes. *)

Definition with_context (info g sub sl psl : pyval) (s : State) : State :=
  {| student_id := student_id s;
     student_info := Some info; grade := Some g; subject := Some sub;
     slos := Some sl; pre_slos := Some psl;
     template_options := template_options s;
     chosen_template := chosen_template s;
     template_recommendation := template_recommendation s;
     template_stages := template_stages s;
     template_approved := template_approved s;
     template_adjustments := template_adjustments s;
     current_stage := current_stage s;
     stage_activities := stage_activities s;
     is_complete := is_complete s;
     final_output := final_output s |}.

Definition with_template_options (v : list string) (s : State) : State :=
  {| student_id := student_id s;
     student_info := student_info s; grade := grade s; subject := subject s;
     slos := slos s; pre_slos := pre_slos s;
     template_options := Some v;
     chosen_template := chosen_template s;
     template_recommendation := template_recommendation s;
     template_stages := template_stages s;
     template_approved := template_approved s;
     template_adjustments := template_adjustments s;
     current_stage := current_stage s;
     stage_activities := stage_activities s;
     is_complete := is_complete s;
     final_output := final_output s |}.

Definition with_template_recommendation (v : pyval) (s : State) : State :=
  {| student_id := student_id s;
     student_info := student_info s; grade := grade s; subject := subject s;
     slos := slos s; pre_slos := pre_slos s;
     template_options := template_options s;
     chosen_template := chosen_template s;
     template_recommendation := Some v;
     template_stages := template_stages s;
     template_approved := template_approved s;
     template_adjustments := template_adjustments s;
     current_stage := current_stage s;
     stage_activities := stage_activities s;
     is_complete := is_complete s;
     final_output := final_output s |}.

Definition with_chosen_template (v : option string) (s : State) : State :=
  {| student_id := student_id s;
     student_info := student_info s; grade := grade s; subject := subject s;
     slos := slos s; pre_slos := pre_slos s;
     template_options := template_options s;
     chosen_template := Some v;
     template_recommendation := template_recommendation s;
     template_stages := template_stages s;
     template_approved := template_approved s;
     template_adjustments := template_adjustments s;
     current_stage := current_stage s;
     stage_activities := stage_activities s;
     is_complete := is_complete s;
     final_output := final_output s |}.

Definition with_template_stages (v : list string) (s : State) : State :=
  {| student_id := student_id s;
     student_info := student_info s; grade := grade s; subject := subject s;
     slos := slos s; pre_slos := pre_slos s;
     template_options := template_options s;
     chosen_template := chosen_template s;
     template_recommendation := template_recommendation s;
     template_stages := Some v;
     template_approved := template_approved s;
     template_adjustments := template_adjustments s;
     current_stage := current_stage s;
     stage_activities := stage_activities s;
     is_complete := is_complete s;
     final_output := final_output s |}.

Definition with_template_approved (v : option bool) (s : State) : State :=
  {| student_id := student_id s;
     student_info := student_info s; grade := grade s; subject := subject s;
     slos := slos s; pre_slos := pre_slos s;
     template_options := template_options s;
     chosen_template := chosen_template s;
     template_recommendation := template_recommendation s;
     template_stages := template_stages s;
     template_approved := Some v;
     template_adjustments := template_adjustments s;
     current_stage := current_stage s;
     stage_activities := stage_activities s;
     is_complete := is_complete s;
     final_output := final_output s |}.

Definition with_template_adjustments (v : list string) (s : State) : State :=
  {| student_id := student_id s;
     student_info := student_info s; grade := grade s; subject := subject s;
     slos := slos s; pre_slos := pre_slos s;
     template_options := template_options s;
     chosen_template := chosen_template s;
     template_recommendation := template_recommendation s;
     template_stages := template_stages s;
     template_approved := template_approved s;
     template_adjustments := Some v;
     current_stage := current_stage s;
     stage_activities := stage_activities s;
     is_complete := is_complete s;
     final_output := final_output s |}.

Definition with_current_stage (v : option string) (s : State) : State :=
  {| student_id := student_id s;
     student_info := student_info s; grade := grade s; subject := subject s;
     slos := slos s; pre_slos := pre_slos s;
     template_options := template_options s;
     chosen_template := chosen_template s;
     template_recommendation := template_recommendation s;
     template_stages := template_stages s;
     template_approved := template_approved s;
     template_adjustments := template_adjustments s;
     current_stage := Some v;
     stage_activities := stage_activities s;
     is_complete := is_complete s;
     final_output := final_output s |}.

Definition with_stage_activities (v : gmap string (list pyval)) (s : State) : State :=
  {| student_id := student_id s;
     student_info := student_info s; grade := grade s; subject := subject s;
     slos := slos s; pre_slos := pre_slos s;
     template_options := template_options s;
     chosen_template := chosen_template s;
     template_recommendation := template_recommendation s;
     template_stages := template_stages s;
     template_approved := template_approved s;
     template_adjustments := template_adjustments s;
     current_stage := current_stage s;
     stage_activities := Some v;
     is_complete := is_complete s;
     final_output := final_output s |}.

Definition with_is_complete (v : bool) (s : State) : State :=
  {| student_id := student_id s;
     student_info := student_info s; grade := grade s; subject := subject s;
     slos := slos s; pre_slos := pre_slos s;
     template_options := template_options s;
     chosen_template := chosen_template s;
     template_recommendation := template_recommendation s;
     template_stages := template_stages s;
     template_approved := template_approved s;
     template_adjustments := template_adjustments s;
     current_stage := current_stage s;
     stage_activities := stage_activities s;
     is_complete := Some v;
     final_output := final_output s |}.

Definition with_final_output (v : option pyval) (s : State) : State :=
  {| student_id := student_id s;
     student_info := student_info s; grade := grade s; subject := subject s;
     slos := slos s; pre_slos := pre_slos s;
     template_options := template_options s;
     chosen_template := chosen_template s;
     template_recommendation := template_recommendation s;
     template_stages := template_stages s;
     template_approved := template_approved s;
     template_adjustments := template_adjustments s;
     current_stage := current_stage s;
     stage_activities := stage_activities s;
     is_complete := is_complete s;
     final_output := Some v |}.

(** [state.get(key)] for the two optional keys read that way: an absent
    key and a key holding [None] both give [None]. *)
Definition get_current_stage (s : State) : option string :=
  match current_stage s with Some v => v | None => None end.

Definition get_chosen_template (s : State) : option string :=
  match chosen_template s with Some v => v | None => None end.

(** ** The world: terminal and reasoner service

    [stdin] is the tape of lines the operator will type ([None] is end of
    input) and [http] the tape of outcomes of the successive HTTP calls,
    whichever endpoint they go to.  The template endpoint has a tape of
    its own because [init_template] uses the reply's [stages] as a list
    of stage names ([template_stages: List[str]]); a reply that is not a
    JSON object makes [definition.get] raise inside the [try] block and
    is therefore covered by [TRaises].  Both tapes are read at
    [http_pos], the number of calls made so far, and [sent] logs the
    requests made, latest first.  Output to the terminal is not
    modelled. *)

Inductive request : Type :=
  | PostContext (sid : string)
  | PostRecommend (context : pyval)
  | GetTemplate (name : string)
  | PostActivities (stage : string) (context : pyval).

Inductive reply : Type :=
  | Raises (e : exn)
  | Body (v : pyval).

Inductive template_reply : Type :=
  | TRaises (e : exn)
  | TBody (stages : option (list string)).

Record World : Type := mkWorld {
  stdin : nat -> option string;
  stdin_pos : nat;
  http : nat -> reply;
  templates : nat -> template_reply;
  http_pos : nat;
  sent : list request
}.

(** ** State-and-exception monad over the world *)

Definition M (A : Type) : Type := World -> result A * World.

Definition ret {A} (a : A) : M A := fun w => (Ok a, w).

Definition raise {A} (e : exn) : M A := fun w => (Err e, w).

Definition bind {A B} (m : M A) (k : A -> M B) : M B :=
  fun w => match m w with
           | (Ok a, w') => k a w'
           | (Err e, w') => (Err e, w')
           end.

Definition lift {A} (r : result A) : M A := fun w => (r, w).

(** [try: body  except Exception: handler]. *)
Definition try_except {A} (body : M A) (handler : exn -> M A) : M A :=
  fun w => match body w with
           | (Ok a, w') => (Ok a, w')
           | (Err e, w') => handler e w'
           end.

Notation "'let*' x ':=' m 'in' k" := (bind m (fun x => k))
  (at level 10, x name, m at level 100, k at level 200).

(** [input(prompt)]: the next line of the terminal, [EOFError] at end of
    input. *)
Definition input : M string :=
  fun w => match stdin w (stdin_pos w) with
           | Some line =>
               (Ok line, mkWorld (stdin w) (S (stdin_pos w)) (http w)
                                 (templates w) (http_pos w) (sent w))
           | None => (Err EOFError, w)
           end.

(** ** ReasonerAPI: the HTTP client

    Each method posts its request, calls [raise_for_status] and decodes
    the body; any failure on the way surfaces as an exception. *)

Module ReasonerAPI.

Definition call (r : request) : M pyval :=
  fun w =>
    let w' := mkWorld (stdin w) (stdin_pos w) (http w) (templates w)
                      (S (http_pos w)) (r :: sent w) in
    match http w (http_pos w) with
    | Body v => (Ok v, w')
    | Raises e => (Err e, w')
    end.

Definition fetch_context (sid : string) : M pyval :=
  call (PostContext sid).

Definition recommend_template (context : pyval) : M pyval :=
  call (PostRecommend context).

(** [template_name.lower()] is evaluated while the URL is built, so a
    [None] name raises before anything is sent.  The result is the reply
    as [definition.get("stages", [])] reads it. *)
Definition fetch_template (template_name : option string) : M (list string) :=
  match template_name with
  | None => raise AttributeError
  | Some name =>
      fun w =>
        let w' := mkWorld (stdin w) (stdin_pos w) (http w) (templates w)
                          (S (http_pos w))
                          (GetTemplate (PyStr.lower name) :: sent w) in
        match templates w (http_pos w) with
        | TBody stages => (Ok (default [] stages), w')
        | TRaises e => (Err e, w')
        end
  end.

Definition propose_activities (stage : string) (context : pyval) : M pyval :=
  call (PostActivities stage context).

End ReasonerAPI.

(** ** Stage 1 *)

Definition TEMPLATE_OPTIONS : list string := ["5E"; "7E"; "PBL"; "Dynamic"].

Definition stage1_fetch_context (state : State) : M State :=
  try_except
    (let* sid := lift (match student_id state with
                       | Some i => Ok i
                       | None => Err (KeyError "student_id")
                       end) in
     let* context := ReasonerAPI.fetch_context sid in
     let* info := lift (Py.get context "student_info" (PDict [])) in
     let* g := lift (Py.get context "grade" (PStr EmptyString)) in
     let* sub := lift (Py.get context "subject" (PStr EmptyString)) in
     let* sl := lift (Py.get context "slos" (PList [])) in
     let* psl := lift (Py.get context "pre_slos" (PList [])) in
     ret (with_template_options TEMPLATE_OPTIONS
            (with_context info g sub sl psl state)))
    (fun _ => ret (with_template_options TEMPLATE_OPTIONS state)).

(** The request payload built from the context fields of the state. *)
Definition context_fields (state : State) : list (string * pyval) :=
  [("grade", default (PStr EmptyString) (grade state));
   ("subject", default (PStr EmptyString) (subject state));
   ("slos", default (PList []) (slos state));
   ("pre_slos", default (PList []) (pre_slos state));
   ("student_info", default (PDict []) (student_info state))].

Definition DEFAULT_RECOMMENDATION : pyval :=
  PDict [("template", PStr "5E"); ("confidence", PInt 0)].

Definition stage1_recommend_template (state : State) : M State :=
  try_except
    (let context := PDict (context_fields state) in
     let* recommendation := ReasonerAPI.recommend_template context in
     ret (with_template_recommendation recommendation state))
    (fun _ => ret (with_template_recommendation DEFAULT_RECOMMENDATION state)).

Definition TEMPLATE_ENUM : list string := ["5E"; "7E"; "PBL"; "DYNAMIC"].

Definition in_enum (s : string) : bool :=
  existsb (String.eqb s) TEMPLATE_ENUM.

(** [chosen.upper()]: only a string has the method. *)
Definition py_upper (v : pyval) : result string :=
  match v with
  | PStr s => Ok (PyStr.upper s)
  | _ => Err AttributeError
  end.

Definition stage1_choose_template (state : State) : M State :=
  let rec := default (PDict []) (template_recommendation state) in
  (* the two summary lines and the prompt each read [rec.get(...)] *)
  let* _ := lift (Py.get rec "template" (PStr "Unknown")) in
  let* _ := lift (Py.get rec "confidence" (PInt 0)) in
  let* _ := lift (Py.get rec "rationale" (PStr "N/A")) in
  let* _ := lift (Py.get rec "template" (PStr "5E")) in
  let* line := input in
  let* chosen :=
    (if PyStr.truthy (PyStr.strip line)
     then ret (PStr (PyStr.strip line))
     else lift (Py.get rec "template" (PStr "5E"))) in
  let* chosen := lift (py_upper chosen) in
  let chosen := if in_enum chosen then chosen else "5E" in
  ret (with_chosen_template (Some chosen) state).

(** ** Template init *)

Definition fallback_stages (template : option string) : list string :=
  match template with
  | Some t =>
      if String.eqb t "5E" then
        ["Engage"; "Explore"; "Explain"; "Elaborate"; "Evaluate"]
      else if String.eqb t "7E" then
        ["Elicit"; "Engage"; "Explore"; "Explain"; "Elaborate"; "Evaluate"; "Extend"]
      else if String.eqb t "PBL" then
        ["Challenge"; "Investigate"; "Create"; "Debrief"]
      else []
  | None => []
  end.

Definition init_template (state : State) : M State :=
  let template := match chosen_template state with
                  | Some v => v
                  | None => Some "5E"
                  end in
  let* stages :=
    try_except (ReasonerAPI.fetch_template template)
               (fun _ => ret (fallback_stages template)) in
  ret (with_template_stages stages state).

(** ** Stage 2 *)

Definition stage2_template_approval (state : State) : M State :=
  let* line := input in
  let ans := PyStr.lower (PyStr.strip line) in
  let approved := negb (String.eqb ans "n") in
  ret (with_template_approved (Some approved) state).

(** [[s.strip() for s in line.split(",") if s.strip()]]. *)
Definition parse_stage_list (line : string) : list string :=
  map PyStr.strip
      (filter (fun s => Is_true (PyStr.truthy (PyStr.strip s)))
              (PyStr.split "," line)).

Definition stage2_template_adjustment (state : State) : M State :=
  let* line := input in
  let ans := PyStr.lower (PyStr.strip line) in
  if String.eqb ans "y" then
    let* line := input in
    let new_stages := parse_stage_list line in
    ret (with_template_adjustments new_stages
           (with_template_stages new_stages state))
  else ret (with_template_adjustments [] state).

Definition stage2_prepare_stages (state : State) : M State :=
  let stages := default [] (template_stages state) in
  ret (with_stage_activities (default ∅ (stage_activities state))
         (with_current_stage (head stages) state)).

Definition default_activity (current_stage : string) : pyval :=
  PDict [("type", PStr "discussion");
         ("title", PStr ("Default activity for " ++ current_stage))].

(** The approval loop over the proposed activities: each is shown (which
    needs it to be a dict) and kept unless the operator answers [n]. *)
Fixpoint approve_activities (activities approved : list pyval) : M (list pyval) :=
  match activities with
  | [] => ret approved
  | activity :: rest =>
      let* _ := lift (Py.get activity "type" (PStr "Unknown")) in
      let* _ := lift (Py.get activity "title" (PStr "No title")) in
      let* line := input in
      let ans := PyStr.lower (PyStr.strip line) in
      approve_activities rest
        (if String.eqb ans "n" then approved else approved ++ [activity])
  end.

Definition stage2_populate_stage (state : State) : M State :=
  match get_current_stage state with
  | None => ret state
  | Some current_stage =>
      if negb (PyStr.truthy current_stage) then ret state
      else
        let context :=
          PDict (("stage", PStr current_stage) :: context_fields state) in
        let* activities :=
          try_except
            (let* response :=
               ReasonerAPI.propose_activities current_stage context in
             lift (Py.get response "activities" (PList [])))
            (fun _ => ret (PList [default_activity current_stage])) in
        let* items := lift (PyIter.iter activities) in
        let* approved := approve_activities items [] in
        let current_activities := default ∅ (stage_activities state) in
        ret (with_stage_activities
               (<[current_stage := approved]> current_activities) state)
  end.

(** [stages.index(x)]: position of the first occurrence. *)
Fixpoint index (x : string) (stages : list string) : option nat :=
  match stages with
  | [] => None
  | y :: r => if String.eqb y x then Some 0 else S <$> index x r
  end.

Definition stage2_next_stage (state : State) : M State :=
  let stages := default [] (template_stages state) in
  match get_current_stage state with
  | Some current_stage =>
      if PyStr.truthy current_stage then
        match index current_stage stages with
        | Some idx =>
            if (Z.of_nat idx <? Z.of_nat (List.length stages) - 1)%Z then
              match stages !! (idx + 1) with
              | Some nxt => ret (with_current_stage (Some nxt) state)
              | None => raise IndexError
              end
            else ret (with_current_stage None state)
        | None => ret (with_current_stage None state)
        end
      else ret (with_current_stage None state)
  | None => ret (with_current_stage None state)
  end.

(** ** Stage 3 *)

Definition stage_done (activities : gmap string (list pyval)) (stage : string) : bool :=
  match activities !! stage with
  | Some (_ :: _) => true
  | _ => false
  end.

Definition stage3_check_completion (state : State) : M State :=
  let stages := default [] (template_stages state) in
  let activities := default ∅ (stage_activities state) in
  let complete :=
    match stages with [] => false | _ => forallb (stage_done activities) stages end in
  ret (with_is_complete complete state).

Definition opt_str (o : option string) : pyval :=
  match o with Some s => PStr s | None => PNone end.

Definition stage3_generate_output (state : State) : M State :=
  let activities := default ∅ (stage_activities state) in
  let output :=
    PDict [("template", opt_str (get_chosen_template state));
           ("stages",
            PList (map (fun stage =>
                          PDict [("name", PStr stage);
                                 ("activities",
                                  PList (default [] (activities !! stage)))])
                       (default [] (template_stages state))));
           ("metadata",
            PDict [("student_id", opt_str (student_id state));
                   ("grade", default PNone (grade state));
                   ("subject", default PNone (subject state));
                   ("slos", default PNone (slos state))])] in
  ret (with_final_output (Some output) state).

(** ** The workflow graph ([create_main_workflow]) *)

Module Node.
Inductive t : Type :=
  | stage1_fetch_context
  | stage1_recommend_template
  | stage1_choose_template
  | init_template
  | stage2_template_approval
  | stage2_template_adjustment
  | stage2_prepare_stages
  | stage2_populate_stage
  | stage2_next_stage
  | stage3_check_completion
  | stage3_generate_output.
End Node.

Inductive target : Type :=
  | To (n : Node.t)
  | END.

(** [builder.add_node(name, fn)]. *)
Definition node_fn (n : Node.t) : State -> M State :=
  match n with
  | Node.stage1_fetch_context => stage1_fetch_context
  | Node.stage1_recommend_template => stage1_recommend_template
  | Node.stage1_choose_template => stage1_choose_template
  | Node.init_template => init_template
  | Node.stage2_template_approval => stage2_template_approval
  | Node.stage2_template_adjustment => stage2_template_adjustment
  | Node.stage2_prepare_stages => stage2_prepare_stages
  | Node.stage2_populate_stage => stage2_populate_stage
  | Node.stage2_next_stage => stage2_next_stage
  | Node.stage3_check_completion => stage3_check_completion
  | Node.stage3_generate_output => stage3_generate_output
  end.

Definition should_continue_stages (state : State) : string :=
  match get_current_stage state with
  | Some c => if PyStr.truthy c then "continue" else "complete"
  | None => "complete"
  end.

(** The mapping given to [add_conditional_edges]. *)
Definition stage_routes (key : string) : option Node.t :=
  if String.eqb key "continue" then Some Node.stage2_populate_stage
  else if String.eqb key "complete" then Some Node.stage3_check_completion
  else None.

(** [add_edge] and [add_conditional_edges]: the successor of a node,
    given the state the node returned. *)
Definition successor (n : Node.t) (state : State) : result target :=
  match n with
  | Node.stage1_fetch_context => Ok (To Node.stage1_recommend_template)
  | Node.stage1_recommend_template => Ok (To Node.stage1_choose_template)
  | Node.stage1_choose_template => Ok (To Node.init_template)
  | Node.init_template => Ok (To Node.stage2_template_approval)
  | Node.stage2_template_approval => Ok (To Node.stage2_template_adjustment)
  | Node.stage2_template_adjustment => Ok (To Node.stage2_prepare_stages)
  | Node.stage2_prepare_stages => Ok (To Node.stage2_populate_stage)
  | Node.stage2_populate_stage => Ok (To Node.stage2_next_stage)
  | Node.stage2_next_stage =>
      match stage_routes (should_continue_stages state) with
      | Some n' => Ok (To n')
      | None => Err (KeyError (should_continue_stages state))
      end
  | Node.stage3_check_completion => Ok (To Node.stage3_generate_output)
  | Node.stage3_generate_output => Ok END
  end.

Definition entry_point : Node.t := Node.stage1_fetch_context.

(** Modelled from the spec: the graph engine behind [workflow.invoke]
    (the [langgraph] package, which is not part of the sources).  Per the
    GraphRunner contract it applies the current node to the state,
    follows the node's edge (for the conditional edge, the one the
    predicate selects on the state just returned), stops at the end
    marker, and fails when a node raises or no successor matches.  Every
    stage returns the whole state dictionary, so the returned state is
    the next state. *)
Inductive config : Type :=
  | At (n : Node.t) (s : State)
  | Finished (s : State)
  | Failed (n : Node.t) (e : exn).

Definition step (c : config) (w : World) : config * World :=
  match c with
  | At n s =>
      match node_fn n s w with
      | (Ok s', w') =>
          match successor n s' with
          | Ok (To n') => (At n' s', w')
          | Ok END => (Finished s', w')
          | Err e => (Failed n e, w')
          end
      | (Err e, w') => (Failed n e, w')
      end
  | _ => (c, w)
  end.

Fixpoint steps (k : nat) (c : config) (w : World) : config * World :=
  match k with
  | 0 => (c, w)
  | S k' => let '(c', w') := step c w in steps k' c' w'
  end.

Definition invoke (fuel : nat) (initial_state : State) (w : World) : config * World :=
  steps fuel (At entry_point initial_state) w.

(** The initial state of the script's [__main__] block. *)
Definition initial_state : State :=
  {| student_id := Some "student_123";
     student_info := Some (PDict []);
     grade := Some (PStr EmptyString);
     subject := Some (PStr EmptyString);
     slos := Some (PList []);
     pre_slos := Some (PList []);
     template_options := Some [];
     chosen_template := Some None;
     template_recommendation := Some PNone;
     template_stages := Some [];
     template_approved := Some None;
     template_adjustments := Some [];
     current_stage := Some None;
     stage_activities := Some ∅;
     is_complete := Some false;
     final_output := Some None |}.

(** ** The workflow over Python's own text methods

    [PyStr.strip], [PyStr.upper] and [PyStr.lower] above are Python's
    [str.strip], [str.upper] and [str.lower] on ASCII text only: the
    real methods also strip Unicode white space (U+0085, U+00A0, ...)
    and change the case of letters outside ASCII.  A [string] stands for
    the UTF-8 bytes of a Python string, for which comparison,
    concatenation, emptiness and splitting at a comma are byte-wise
    faithful.  The module [Generic] therefore repeats the stages that
    call the three methods with the methods as a parameter [T]; what is
    proved of it for every [T] holds of [main.py] on any text.  The
    stages defined above are the instance of [Generic] at
    [ascii_text]. *)

Record PyText : Type := mkText {
  t_strip : string -> string;
  t_upper : string -> string;
  t_lower : string -> string
}.

Definition ascii_text : PyText := mkText PyStr.strip PyStr.upper PyStr.lower.

Module Generic.
Section WithText.
Variable T : PyText.

Definition fetch_template (template_name : option string) : M (list string) :=
  match template_name with
  | None => raise AttributeError
  | Some name =>
      fun w =>
        let w' := mkWorld (stdin w) (stdin_pos w) (http w) (templates w)
                          (S (http_pos w))
                          (GetTemplate (t_lower T name) :: sent w) in
        match templates w (http_pos w) with
        | TBody stages => (Ok (default [] stages), w')
        | TRaises e => (Err e, w')
        end
  end.

Definition py_upper (v : pyval) : result string :=
  match v with
  | PStr s => Ok (t_upper T s)
  | _ => Err AttributeError
  end.

Definition stage1_choose_template (state : State) : M State :=
  let rec := default (PDict []) (template_recommendation state) in
  let* _ := lift (Py.get rec "template" (PStr "Unknown")) in
  let* _ := lift (Py.get rec "confidence" (PInt 0)) in
  let* _ := lift (Py.get rec "rationale" (PStr "N/A")) in
  let* _ := lift (Py.get rec "template" (PStr "5E")) in
  let* line := input in
  let* chosen :=
    (if PyStr.truthy (t_strip T line)
     then ret (PStr (t_strip T line))
     else lift (Py.get rec "template" (PStr "5E"))) in
  let* chosen := lift (py_upper chosen) in
  let chosen := if in_enum chosen then chosen else "5E" in
  ret (with_chosen_template (Some chosen) state).

Definition init_template (state : State) : M State :=
  let template := match chosen_template state with
                  | Some v => v
                  | None => Some "5E"
                  end in
  let* stages :=
    try_except (fetch_template template)
               (fun _ => ret (fallback_stages template)) in
  ret (with_template_stages stages state).

Definition stage2_template_approval (state : State) : M State :=
  let* line := input in
  let ans := t_lower T (t_strip T line) in
  let approved := negb (String.eqb ans "n") in
  ret (with_template_approved (Some approved) state).

Definition parse_stage_list (line : string) : list string :=
  map (t_strip T)
      (filter (fun s => Is_true (PyStr.truthy (t_strip T s)))
              (PyStr.split "," line)).

Definition stage2_template_adjustment (state : State) : M State :=
  let* line := input in
  let ans := t_lower T (t_strip T line) in
  if String.eqb ans "y" then
    let* line := input in
    let new_stages := parse_stage_list line in
    ret (with_template_adjustments new_stages
           (with_template_stages new_stages state))
  else ret (with_template_adjustments [] state).

Fixpoint approve_activities (activities approved : list pyval) : M (list pyval) :=
  match activities with
  | [] => ret approved
  | activity :: rest =>
      let* _ := lift (Py.get activity "type" (PStr "Unknown")) in
      let* _ := lift (Py.get activity "title" (PStr "No title")) in
      let* line := input in
      let ans := t_lower T (t_strip T line) in
      approve_activities rest
        (if String.eqb ans "n" then approved else approved ++ [activity])
  end.

Definition stage2_populate_stage (state : State) : M State :=
  match get_current_stage state with
  | None => ret state
  | Some current_stage =>
      if negb (PyStr.truthy current_stage) then ret state
      else
        let context :=
          PDict (("stage", PStr current_stage) :: context_fields state) in
        let* activities :=
          try_except
            (let* response :=
               ReasonerAPI.propose_activities current_stage context in
             lift (Py.get response "activities" (PList [])))
            (fun _ => ret (PList [default_activity current_stage])) in
        let* items := lift (PyIter.iter activities) in
        let* approved := approve_activities items [] in
        let current_activities := default ∅ (stage_activities state) in
        ret (with_stage_activities
               (<[current_stage := approved]> current_activities) state)
  end.

(** The stages that call no text method are those defined above. *)
Definition node_fn (n : Node.t) : State -> M State :=
  match n with
  | Node.stage1_fetch_context => stage1_fetch_context
  | Node.stage1_recommend_template => stage1_recommend_template
  | Node.stage1_choose_template => stage1_choose_template
  | Node.init_template => init_template
  | Node.stage2_template_approval => stage2_template_approval
  | Node.stage2_template_adjustment => stage2_template_adjustment
  | Node.stage2_prepare_stages => stage2_prepare_stages
  | Node.stage2_populate_stage => stage2_populate_stage
  | Node.stage2_next_stage => stage2_next_stage
  | Node.stage3_check_completion => stage3_check_completion
  | Node.stage3_generate_output => stage3_generate_output
  end.

Definition step (c : config) (w : World) : config * World :=
  match c with
  | At n s =>
      match node_fn n s w with
      | (Ok s', w') =>
          match successor n s' with
          | Ok (To n') => (At n' s', w')
          | Ok END => (Finished s', w')
          | Err e => (Failed n e, w')
          end
      | (Err e, w') => (Failed n e, w')
      end
  | _ => (c, w)
  end.

Fixpoint steps (k : nat) (c : config) (w : World) : config * World :=
  match k with
  | 0 => (c, w)
  | S k' => let '(c', w') := step c w in steps k' c' w'
  end.

End WithText.
End Generic.

(** ** Auxiliary notions used in the statements *)

(** No character of [s] is white space. *)
Fixpoint no_space (s : string) : bool :=
  match s with
  | EmptyString => true
  | String c r => negb (PyStr.is_space c) && no_space r
  end.

(** The value [stage1_choose_template] settles on, from the line typed
    and the recommendation dict [d]: the body of the stage between
    [input] and the final [return]. *)
Definition normalize_choice (d : list (string * pyval)) (line : string) : result string :=
  match
    (if PyStr.truthy (PyStr.strip line)
     then Ok (PStr (PyStr.strip line))
     else Py.get (PDict d) "template" (PStr "5E"))
  with
  | Ok v =>
      match py_upper v with
      | Ok u => Ok (if in_enum u then u else "5E")
      | Err e => Err e
      end
  | Err e => Err e
  end.

(** The stage names of the activity proposals among some requests. *)
Definition activity_requests (l : list request) : list string :=
  omap (fun r => match r with PostActivities stage _ => Some stage | _ => None end) l.




(** The run is over, or stands at the completion check with the cursor
    cleared. *)
Definition loop_left (L : list string) (c : config) : Prop :=
  (exists n e, c = Failed n e)
  \/ (exists s, c = At Node.stage3_check_completion s
                /\ get_current_stage s = None
                /\ template_stages s = Some L).

(** Which exception can leave which node: the three prompts fail at end
    of input, [stage1_choose_template] and the approval loop of
    [stage2_populate_stage] also on a value without [get] or [upper],
    and the latter on activities that cannot be iterated. *)
Definition can_fail (n : Node.t) (e : exn) : bool :=
  match n, e with
  | Node.stage1_choose_template, (EOFError | AttributeError) => true
  | Node.stage2_template_approval, EOFError => true
  | Node.stage2_template_adjustment, EOFError => true
  | Node.stage2_populate_stage, (EOFError | AttributeError | TypeError) => true
  | _, _ => false
  end.

(** A configuration the engine does not leave. *)
Definition terminal (c : config) : Prop :=
  match c with
  | At _ _ => False
  | _ => True
  end.

(** The state with the keys that no stage reads blanked out:
    [template_options], [template_approved], [template_adjustments],
    [is_complete] and [final_output]. *)
Definition read_part (s : State) : State :=
  with_template_options []
    (with_template_approved None
       (with_template_adjustments []
          (with_is_complete false (with_final_output None s)))).

(** Two configurations at the same point of the graph whose states agree
    on every key a stage reads; at the end marker also on the output. *)
Definition same_course (c1 c2 : config) : Prop :=
  match c1, c2 with
  | At n1 s1, At n2 s2 => n1 = n2 /\ read_part s1 = read_part s2
  | Finished s1, Finished s2 =>
      read_part s1 = read_part s2 /\ final_output s1 = final_output s2
  | Failed n1 e1, Failed n2 e2 => n1 = n2 /\ e1 = e2
  | _, _ => False
  end.

(** [c] occurs in [s]. *)
Fixpoint has_char (c : ascii) (s : string) : bool :=
  match s with
  | EmptyString => false
  | String x r => Ascii.eqb x c || has_char c r
  end.

(** [s] is empty or does not begin with white space. *)
Definition starts_clean (s : string) : Prop :=
  match s with
  | EmptyString => True
  | String c _ => PyStr.is_space c = false
  end.

(** What [stage2_populate_stage] offers for approval at the stage [cur]:
    the [activities] of the reply when the call succeeds with a JSON
    object ([[]] when the object has no such key), the default activity
    when the call raises or the body is not an object. *)
Definition proposals_offered (w : World) (cur : string) : pyval :=
  match http w (http_pos w) with
  | Body (PDict d) => default (PList []) (Py.assoc "activities" d)
  | _ => PList [default_activity cur]
  end.

(** The entries of the [stages] list of a final output. *)
Definition reported_stages (output : pyval) : list pyval :=
  match Py.get output "stages" PNone with
  | Ok (PList entries) => entries
  | _ => []
  end.

(** An output entry that lists at least one activity. *)
Definition has_activity (entry : pyval) : Prop :=
  exists a rest, Py.get entry "activities" PNone = Ok (PList (a :: rest)).

(** ** The reasoner service ([reasoner.py])

    Of the service, the template catalogue and the activity generator
    are modelled; the replies it wraps them in also carry the text of
    the mock language model and a time stamp, which are left out. *)

Module ReasonerService.

(** [_initialize_templates]. *)
Definition _initialize_templates : list (string * pyval) :=
  [("5e",
    PDict [("name", PStr "5E Instructional Model");
           ("description", PStr "Engage, Explore, Explain, Elaborate, Evaluate");
           ("stages", PList [PStr "Engage"; PStr "Explore"; PStr "Explain";
                             PStr "Elaborate"; PStr "Evaluate"]);
           ("best_for", PList [PStr "Science"; PStr "Mathematics";
                               PStr "Inquiry-based learning"]);
           ("confidence_factors",
            PList [PStr "student_engagement"; PStr "hands_on_learning";
                   PStr "conceptual_understanding"])]);
   ("7e",
    PDict [("name", PStr "7E Instructional Model");
           ("description",
            PStr "Elicit, Engage, Explore, Explain, Elaborate, Evaluate, Extend");
           ("stages", PList [PStr "Elicit"; PStr "Engage"; PStr "Explore";
                             PStr "Explain"; PStr "Elaborate"; PStr "Evaluate";
                             PStr "Extend"]);
           ("best_for", PList [PStr "Advanced science"; PStr "Complex concepts";
                               PStr "Extended learning"]);
           ("confidence_factors",
            PList [PStr "prior_knowledge"; PStr "advanced_learning";
                   PStr "comprehensive_coverage"])]);
   ("pbl",
    PDict [("name", PStr "Problem-Based Learning");
           ("description", PStr "Challenge, Investigate, Create, Debrief");
           ("stages", PList [PStr "Challenge"; PStr "Investigate"; PStr "Create";
                             PStr "Debrief"]);
           ("best_for", PList [PStr "Real-world applications";
                               PStr "Critical thinking";
                               PStr "Collaborative learning"]);
           ("confidence_factors",
            PList [PStr "problem_solving"; PStr "collaboration";
                   PStr "real_world_relevance"])]);
   ("dynamic",
    PDict [("name", PStr "Dynamic Learning Model");
           ("description", PStr "Adaptive stages based on student progress");
           ("stages", PList [PStr "Assess"; PStr "Adapt"; PStr "Implement";
                             PStr "Review"]);
           ("best_for", PList [PStr "Personalized learning";
                               PStr "Adaptive instruction";
                               PStr "Student-paced learning"]);
           ("confidence_factors",
            PList [PStr "personalization"; PStr "adaptability";
                   PStr "student_agency"])])].

(** The dict literal of one activity. *)
Definition activity (type title description duration : string)
    (materials adaptations : list string) : pyval :=
  PDict [("type", PStr type); ("title", PStr title);
         ("description", PStr description); ("duration", PStr duration);
         ("materials", PList (map PStr materials));
         ("adaptations", PList (map PStr adaptations))].

(** The activities [_generate_stage_activities] starts from, by the
    lower-cased stage name. *)
Definition stage_activities_for (stage : string) : list pyval :=
  let key := PyStr.lower stage in
  if String.eqb key "engage" then
    [activity "discussion" "Hook Discussion"
       "Start with an intriguing question or real-world scenario"
       "10-15 minutes" ["Discussion prompts"; "Visual aids"]
       ["Group discussion"; "Individual reflection"; "Interactive polling"];
     activity "video" "Inspirational Video"
       "Show a short video related to the topic"
       "5-8 minutes" ["Video content"; "Discussion questions"]
       ["Pause for discussion"; "Note-taking"; "Predictions"]]
  else if String.eqb key "explore" then
    [activity "hands_on" "Guided Investigation"
       "Students explore concepts through hands-on activities"
       "20-30 minutes" ["Lab materials"; "Safety equipment"; "Worksheets"]
       ["Partner work"; "Individual exploration"; "Station rotation"];
     activity "simulation" "Digital Simulation"
       "Use computer simulations to explore concepts"
       "15-25 minutes" ["Computer/tablet"; "Simulation software"]
       ["Individual work"; "Small groups"; "Whole class demonstration"]]
  else if String.eqb key "explain" then
    [activity "lecture" "Concept Explanation"
       "Teacher explains key concepts with examples"
       "15-20 minutes" ["Presentation slides"; "Examples"; "Visual aids"]
       ["Interactive lecture"; "Student questions"; "Real-time examples"];
     activity "reading" "Text Analysis"
       "Students read and analyze relevant text"
       "20-25 minutes" ["Reading materials"; "Highlighters"; "Note-taking tools"]
       ["Individual reading"; "Partner reading"; "Group discussion"]]
  else if String.eqb key "elaborate" then
    [activity "project" "Extended Project"
       "Students apply concepts in a longer project"
       "45-60 minutes" ["Project materials"; "Guidelines"; "Assessment rubrics"]
       ["Individual projects"; "Group projects"; "Choice of project type"];
     activity "application" "Real-world Application"
       "Apply concepts to real-world scenarios"
       "30-40 minutes" ["Case studies"; "Problem scenarios"; "Research tools"]
       ["Individual work"; "Partner collaboration"; "Class presentation"]]
  else if String.eqb key "evaluate" then
    [activity "assessment" "Formative Assessment"
       "Check student understanding through various methods"
       "20-30 minutes" ["Assessment tools"; "Feedback forms"; "Rubrics"]
       ["Individual assessment"; "Peer assessment"; "Self-assessment"];
     activity "reflection" "Learning Reflection"
       "Students reflect on their learning journey"
       "15-20 minutes"
       ["Reflection prompts"; "Journal entries"; "Discussion questions"]
       ["Written reflection"; "Oral reflection"; "Creative reflection"]]
  else
    [activity "discussion" (stage ++ " Stage Activity")
       ("Customized activity for the " ++ stage ++ " stage")
       "20-25 minutes" ["Activity materials"; "Instructions"]
       ["Individual work"; "Group work"; "Whole class"]].

(** [context.get("student_info", {}).get("learning_style")]. *)
Definition learning_style (context : pyval) : result pyval :=
  match Py.get context "student_info" (PDict []) with
  | Ok info => Py.get info "learning_style" PNone
  | Err e => Err e
  end.

(** [value == text] for a string literal [text]. *)
Definition is_str (value : pyval) (text : string) : bool :=
  match value with
  | PStr s => String.eqb s text
  | _ => false
  end.

(** [activity["materials"].append(material)]. *)
Definition append_material (material : string) (a : pyval) : pyval :=
  match a with
  | PDict d =>
      PDict (map (fun kv =>
                    if String.eqb (fst kv) "materials" then
                      (fst kv, match snd kv with
                               | PList l => PList (l ++ [PStr material])
                               | v => v
                               end)
                    else kv) d)
  | _ => a
  end.

(** The body of the customisation loop, given the learning style found:
    a visual learner gets visual aids, a kinesthetic one hands-on
    materials. *)
Definition adapt (style : pyval) (a : pyval) : pyval :=
  if is_str style "visual" then append_material "Visual aids" a
  else if is_str style "kinesthetic" then append_material "Hands-on materials" a
  else a.

(** The customisation loop: the learning style is looked up afresh for
    every activity. *)
Fixpoint customize (context : pyval) (activities : list pyval) : result (list pyval) :=
  match activities with
  | [] => Ok []
  | a :: rest =>
      match learning_style context with
      | Err e => Err e
      | Ok style =>
          match customize context rest with
          | Ok rest' => Ok (adapt style a :: rest')
          | Err e => Err e
          end
      end
  end.

Definition _generate_stage_activities (stage : string) (context : pyval) : result (list pyval) :=
  customize context (stage_activities_for stage).

End ReasonerService.

(** The stage names a catalogue entry lists. *)
Definition catalogue_stages (template : string) : option (list string) :=
  match Py.assoc (PyStr.lower template) ReasonerService._initialize_templates with
  | Some entry =>
      match Py.get entry "stages" PNone with
      | Ok (PList l) =>
          Some (omap (fun v => match v with PStr s => Some s | _ => None end) l)
      | _ => None
      end
  | None => None
  end.

(** An activity as the terminal shows it: a dict with a string [type]
    and a string [title]. *)
Definition showable (a : pyval) : Prop :=
  exists d type title,
    a = PDict d
    /\ Py.assoc "type" d = Some (PStr type)
    /\ Py.assoc "title" d = Some (PStr title).

(** The last material an activity lists. *)
Definition last_material (a : pyval) : option pyval :=
  match Py.get a "materials" PNone with
  | Ok (PList l) => last l
  | _ => None
  end.

(** Every character of [s] is an ASCII character. *)
Fixpoint is_ascii (s : string) : bool :=
  match s with
  | EmptyString => true
  | String c r => (N_of_ascii c <? 128)%N && is_ascii r
  end.

(** What the properties below use of Python's text methods, each a fact
    about [str.strip] and [str.upper]: stripping twice is stripping
    once; stripping only removes characters; upper-casing leaves white
    space at either end where it is, so a string whose upper-casing has
    none to strip has none itself; and on ASCII text the two methods do
    what [PyStr.strip] and [PyStr.upper] do. *)
Record python_text (T : PyText) : Prop := {
  strip_twice : forall s, t_strip T (t_strip T s) = t_strip T s;
  strip_removes : forall c s, has_char c (t_strip T s) = true -> has_char c s = true;
  upper_keeps_margins :
    forall s, t_strip T (t_upper T s) = t_upper T s -> t_strip T s = s;
  strip_ascii : forall s, is_ascii s = true -> t_strip T s = PyStr.strip s;
  upper_ascii : forall s, is_ascii s = true -> t_upper T s = PyStr.upper s
}.

(** The value [Generic.stage1_choose_template] settles on, from the
    line typed and the recommendation dict [d]. *)
Definition normalize_choice_with (T : PyText) (d : list (string * pyval))
    (line : string) : result string :=
  match
    (if PyStr.truthy (t_strip T line)
     then Ok (PStr (t_strip T line))
     else Py.get (PDict d) "template" (PStr "5E"))
  with
  | Ok v =>
      match Generic.py_upper T v with
      | Ok u => Ok (if in_enum u then u else "5E")
      | Err e => Err e
      end
  | Err e => Err e
  end.

(** The name [stage2_next_stage] moves the cursor to from [cur]: the one
    after the first occurrence of [cur]. *)
Definition following (L : list string) (cur : string) : option string :=
  match index cur L with
  | Some idx => L !! (idx + 1)
  | None => None
  end.



(** ** Scenarios

    Concrete terminals and reasoners on which the stages are run. *)

(** The reasoner never answers in time and nobody is at the terminal. *)
Definition timeout_world : World :=
  mkWorld (fun _ => None) 0 (fun _ => Raises Timeout)
          (fun _ => TRaises Timeout) 0 [].

(** A terminal whose first lines are [lines] and which then keeps
    answering with [rest]. *)
Definition typed (lines : list string) (rest : option string) : nat -> option string :=
  fun i => match lines !! i with Some l => Some l | None => rest end.

(** The reasoner knows neither the student nor the template: the
    context call (the first) and the template call (the third) come back
    as HTTP errors (status 500 is what the service of [reasoner.py]
    answers when its lookup raises); it recommends a template and
    proposes one activity per stage.  The operator accepts every
    default. *)
Definition proposed_activities : pyval :=
  PDict [("stage", PStr "any");
         ("activities",
          PList [PDict [("type", PStr "hands_on"); ("title", PStr "Experiment")]])].

Definition not_found_world : World :=
  mkWorld (typed [] (Some EmptyString)) 0
          (fun i => match i with
                    | 0 => Raises (HTTPError 500)
                    | 1 => Body (PDict [("template", PStr "5E");
                                        ("confidence", PFloat (QArith_base.Qmake 7 10));
                                        ("rationale", PStr "structured")])
                    | _ => Body proposed_activities
                    end)
          (fun _ => TRaises (HTTPError 500)) 0 [].

(** A recommendation outside the catalogue, and a terminal where the
    operator just presses return. *)
Definition montessori_state : State :=
  with_template_recommendation
    (PDict [("template", PStr "Montessori"); ("confidence", PInt 1)])
    initial_state.

Definition return_key_world : World :=
  mkWorld (typed [EmptyString] None) 0 (http timeout_world)
          (templates timeout_world) 0 [].

(** The operator replaces the stage sequence by one that names a stage
    twice.  The reasoner is down, so every stage is offered its default
    activity; the operator approves it on the first two visits, rejects
    it on the third and approves from then on. *)
Definition repeated_stages : list string := ["Engage"; "Explore"; "Engage"].

Definition repeated_stage_world : World :=
  mkWorld (typed [EmptyString; EmptyString; "y"; "Engage,Explore,Engage";
                  EmptyString; EmptyString; "n"] (Some EmptyString)) 0
          (fun _ => Raises ConnectionError)
          (fun _ => TRaises ConnectionError) 0 [].

(** The state of that run inside the stage loop, with the cursor at
    [cur] and the approved content [m]. *)
Definition looping_state (cur : string) (m : gmap string (list pyval)) : State :=
  {| student_id := Some "student_123";
     student_info := Some (PDict []);
     grade := Some (PStr EmptyString);
     subject := Some (PStr EmptyString);
     slos := Some (PList []);
     pre_slos := Some (PList []);
     template_options := Some TEMPLATE_OPTIONS;
     chosen_template := Some (Some "5E");
     template_recommendation := Some DEFAULT_RECOMMENDATION;
     template_stages := Some repeated_stages;
     template_approved := Some (Some true);
     template_adjustments := Some repeated_stages;
     current_stage := Some (Some cur);
     stage_activities := Some m;
     is_complete := Some false;
     final_output := Some None |}.

(** A terminal that never reaches end of input, facing a reasoner that
    is down. *)
Definition never_dry (w : World) : Prop :=
  (forall i, is_Some (stdin w i))
  /\ (forall i, http w i = Raises ConnectionError).

(** The configurations of the loop over [repeated_stages]. *)
Definition looping (c : config) : Prop :=
  exists cur m,
    (cur = "Engage" \/ cur = "Explore")
    /\ (c = At Node.stage2_populate_stage (looping_state cur m)
        \/ c = At Node.stage2_next_stage (looping_state cur m)).

(** The operator asks to adjust the stages and types a new list. *)
Definition adjusting_world : World :=
  mkWorld (typed [" Y "; "Hook, Build ,,Reflect"] (Some EmptyString)) 0
          (fun _ => Body proposed_activities)
          (fun _ => TRaises (HTTPError 500)) 0 [].

(** A state as [init_template] leaves it for the 5E template. *)
Definition five_e_state : State :=
  with_template_stages (fallback_stages (Some "5E"))
    (with_chosen_template (Some "5E") initial_state).

(** The reasoner answers the proposal request with a JSON object whose
    [activities] is [null]. *)
Definition null_activities_world : World :=
  mkWorld (typed [] (Some EmptyString)) 0
          (fun _ => Body (PDict [("stage", PStr "Engage"); ("activities", PNone)]))
          (fun _ => TRaises (HTTPError 500)) 0 [].


(** * Properties *)

(** ** Completion check *)

Lemma stage_done_spec (activities : gmap string (list pyval)) (stage : string) :
  stage_done activities stage = true <->
  exists items, activities !! stage = Some items /\ items <> [].
Proof.
  unfold stage_done. destruct (activities !! stage) as [[|x l]|]; split.
  - discriminate.
  - intros (items & Heq & Hne). inversion Heq. subst. contradiction.
  - intros _. exists (x :: l). split; [reflexivity | discriminate].
  - reflexivity.
  - discriminate.
  - intros (items & Heq & _). discriminate Heq.
Qed.

(** C1. [stage3_check_completion] always returns, changes nothing but
    [is_complete], and sets it to true exactly when [template_stages] is
    non-empty and every stage name in it is a key of [stage_activities]
    holding a non-empty list.  In particular the flag is false for an
    empty [template_stages], and false as soon as one listed stage has
    no entry or an empty one. *)
Theorem check_completion_iff (state : State) (w : World) :
  let stages := default [] (template_stages state) in
  let activities := default ∅ (stage_activities state) in
  exists complete : bool,
    stage3_check_completion state w = (Ok (with_is_complete complete state), w)
    /\ (complete = true <->
        stages <> [] /\
        forall stage, stage ∈ stages ->
          exists items, activities !! stage = Some items /\ items <> [])
    /\ (stages = [] -> complete = false)
    /\ (forall stage, stage ∈ stages ->
          (activities !! stage = None \/ activities !! stage = Some []) ->
          complete = false).
Proof.
  intros stages activities.
  assert (Hall : forallb (stage_done activities) stages = true <->
                 forall stage, stage ∈ stages ->
                   exists items, activities !! stage = Some items /\ items <> []).
  { rewrite forallb_forall. split.
    - intros H stage Hin. apply stage_done_spec, H, list_elem_of_In, Hin.
    - intros H stage Hin. apply stage_done_spec, H, list_elem_of_In, Hin. }
  exists (match stages with [] => false | _ => forallb (stage_done activities) stages end).
  assert (Hiff : (match stages with [] => false
                  | _ => forallb (stage_done activities) stages end) = true <->
                 stages <> [] /\
                 forall stage, stage ∈ stages ->
                   exists items, activities !! stage = Some items /\ items <> []).
  { destruct stages as [|x r] eqn:E.
    - split; [discriminate | intros [H _]; contradiction].
    - rewrite Hall. split; [intros H; split; [discriminate | exact H] | intros [_ H]; exact H]. }
  split; [reflexivity |]. split; [exact Hiff |]. split.
  - intros ->. reflexivity.
  - intros stage Hin Hbad.
    apply not_true_is_false. intros Htrue. apply Hiff in Htrue as [_ Hevery].
    destruct (Hevery stage Hin) as (items & Hsome & Hne).
    destruct Hbad as [Hbad | Hbad]; rewrite Hbad in Hsome.
    + discriminate Hsome.
    + inversion Hsome. subst. contradiction.
Qed.

(** ** Template recommendation *)

(** C5. Whatever the state, when the reasoner call made by
    [stage1_recommend_template] raises (a timeout or any other error),
    the stage still returns: the state it returns differs from the input
    only in [template_recommendation], which is the record with template
    [5E] and confidence [0]. *)
Theorem recommend_template_failure_default (state : State) (w : World) (e : exn) :
  http w (http_pos w) = Raises e ->
  exists state' w',
    stage1_recommend_template state w = (Ok state', w')
    /\ state' = with_template_recommendation
                  (PDict [("template", PStr "5E"); ("confidence", PInt 0)]) state.
Proof.
  intros Hfail.
  unfold stage1_recommend_template, try_except, bind,
    ReasonerAPI.recommend_template, ReasonerAPI.call.
  rewrite Hfail. cbn. eexists _, _. split; reflexivity.
Qed.

Lemma recommend_template_failure_default_witness :
  exists state' w',
    stage1_recommend_template initial_state timeout_world = (Ok state', w')
    /\ template_recommendation state'
       = Some (PDict [("template", PStr "5E"); ("confidence", PInt 0)]).
Proof.
  destruct (recommend_template_failure_default initial_state timeout_world Timeout)
    as (state' & w' & Hrun & Heq); [reflexivity |].
  exists state', w'. split; [exact Hrun |]. rewrite Heq. reflexivity.
Defined.

(** ** Template choice *)

Lemma in_enum_spec (s : string) :
  in_enum s = true <-> s ∈ TEMPLATE_ENUM.
Proof.
  unfold in_enum, TEMPLATE_ENUM. rewrite existsb_exists. split.
  - intros (x & Hin & Heq). apply String.eqb_eq in Heq. subst x.
    apply list_elem_of_In, Hin.
  - intros Hin. exists s. split; [apply list_elem_of_In, Hin | apply String.eqb_refl].
Qed.

Lemma is_space_upper_char (c : ascii) :
  PyStr.is_space (PyStr.upper_char c) = PyStr.is_space c.
Proof.
  destruct c as [b0 b1 b2 b3 b4 b5 b6 b7].
  destruct b0, b1, b2, b3, b4, b5, b6, b7; reflexivity.
Qed.

Lemma no_space_upper (s : string) :
  no_space (PyStr.upper s) = no_space s.
Proof.
  induction s as [|c r IH]; [reflexivity |].
  cbn [PyStr.upper no_space]. rewrite is_space_upper_char, IH. reflexivity.
Qed.

Lemma rstrip_no_space (s : string) :
  no_space s = true -> PyStr.rstrip s = s.
Proof.
  induction s as [|c r IH]; [reflexivity |].
  cbn [no_space PyStr.rstrip]. intros H.
  apply andb_true_iff in H as [Hc Hr]. rewrite (IH Hr).
  apply negb_true_iff in Hc. destruct r; [rewrite Hc |]; reflexivity.
Qed.

Lemma strip_no_space (s : string) :
  no_space s = true -> PyStr.strip s = s.
Proof.
  intros H. unfold PyStr.strip.
  assert (Hl : PyStr.lstrip s = s).
  { destruct s as [|c r]; [reflexivity |].
    cbn [no_space] in H. apply andb_true_iff in H as [Hc _].
    apply negb_true_iff in Hc. cbn [PyStr.lstrip]. rewrite Hc. reflexivity. }
  rewrite Hl. apply rstrip_no_space, H.
Qed.

Lemma truthy_upper (s : string) :
  PyStr.truthy (PyStr.upper s) = PyStr.truthy s.
Proof. destruct s; reflexivity. Qed.

(** An input whose upper-casing is an enum value has no white space
    around it and is not empty: [strip] leaves it alone. *)
Lemma enum_input_is_stripped (line : string) :
  in_enum (PyStr.upper line) = true ->
  PyStr.strip line = line /\ PyStr.truthy line = true.
Proof.
  intros H. assert (Hns : no_space (PyStr.upper line) = true /\
                          PyStr.truthy (PyStr.upper line) = true).
  { apply in_enum_spec in H. unfold TEMPLATE_ENUM in H.
    repeat (apply elem_of_cons in H as [-> | H]; [split; reflexivity |]).
    apply elem_of_nil in H. contradiction. }
  destruct Hns as [Hns Ht]. rewrite no_space_upper in Hns.
  rewrite truthy_upper in Ht. split; [apply strip_no_space, Hns | exact Ht].
Qed.

Lemma choose_template_run (state : State) (w : World) d line :
  default (PDict []) (template_recommendation state) = PDict d ->
  stdin w (stdin_pos w) = Some line ->
  stage1_choose_template state w =
    (match normalize_choice d line with
     | Ok c => Ok (with_chosen_template (Some c) state)
     | Err e => Err e
     end,
     mkWorld (stdin w) (S (stdin_pos w)) (http w) (templates w)
             (http_pos w) (sent w)).
Proof.
  intros Hrec Hline.
  unfold stage1_choose_template, normalize_choice. rewrite Hrec.
  unfold bind, lift, ret, input. cbn [Py.get]. rewrite Hline.
  destruct (PyStr.truthy (PyStr.strip line)).
  - cbn [py_upper]. reflexivity.
  - cbn [Py.get]. destruct (py_upper _); reflexivity.
Qed.

Lemma choose_template_ok (state state' : State) (w w' : World) :
  stage1_choose_template state w = (Ok state', w') ->
  exists d line c,
    default (PDict []) (template_recommendation state) = PDict d
    /\ stdin w (stdin_pos w) = Some line
    /\ normalize_choice d line = Ok c
    /\ state' = with_chosen_template (Some c) state.
Proof.
  intros H.
  destruct (default (PDict []) (template_recommendation state)) as [| | | | |l|d] eqn:Hrec;
    try (unfold stage1_choose_template in H; rewrite Hrec in H; discriminate H).
  destruct (stdin w (stdin_pos w)) as [line|] eqn:Hline.
  - rewrite (choose_template_run state w d line Hrec Hline) in H.
    destruct (normalize_choice d line) as [c|e] eqn:Hn; [| discriminate H].
    inversion H. exists d, line, c. repeat split; reflexivity || assumption.
  - unfold stage1_choose_template in H. rewrite Hrec in H.
    unfold bind, lift, input in H. cbn [Py.get] in H. rewrite Hline in H.
    discriminate H.
Qed.

Lemma normalize_choice_in_enum d line c :
  normalize_choice d line = Ok c -> c ∈ TEMPLATE_ENUM.
Proof.
  unfold normalize_choice.
  destruct (if PyStr.truthy (PyStr.strip line) then _ else _) as [v|e]; [| discriminate].
  destruct (py_upper v) as [u|e]; [| discriminate].
  intros H. inversion H. destruct (in_enum u) eqn:E.
  - apply in_enum_spec, E.
  - unfold TEMPLATE_ENUM. apply elem_of_cons. left. reflexivity.
Qed.

(** C10, second half as stated, fails: with the recommendation
    [Montessori] and an empty line typed, the stage does not choose the
    recommended template but [5E]. *)
Lemma choose_template_blank_not_recommended :
  ~ (exists w', stage1_choose_template montessori_state return_key_world
                = (Ok (with_chosen_template (Some "Montessori") montessori_state), w'))
  /\ exists w', stage1_choose_template montessori_state return_key_world
                = (Ok (with_chosen_template (Some "5E") montessori_state), w').
Proof.
  split.
  - intros [w' H]. vm_compute in H. discriminate H.
  - eexists. vm_compute. reflexivity.
Qed.

(** ** Reasoner errors at the context and template stages *)

(** C3 as the code has it.  When the next reasoner call raises (an
    unknown subject or template is reported as an HTTP error), neither
    [stage1_fetch_context] nor [init_template] lets the exception out:
    the first returns the state with only [template_options] set, the
    second substitutes the hard-coded stage list of the chosen template,
    and the engine moves on to the following node. *)
Theorem not_found_recovered_locally (state : State) (w : World) (e : exn) :
  http w (http_pos w) = Raises e ->
  templates w (http_pos w) = TRaises e ->
  let template := match chosen_template state with
                  | Some v => v
                  | None => Some "5E"
                  end in
  (exists w',
     stage1_fetch_context state w
     = (Ok (with_template_options TEMPLATE_OPTIONS state), w')
     /\ step (At Node.stage1_fetch_context state) w
        = (At Node.stage1_recommend_template
              (with_template_options TEMPLATE_OPTIONS state), w'))
  /\ (exists w',
        init_template state w
        = (Ok (with_template_stages (fallback_stages template) state), w')
        /\ step (At Node.init_template state) w
           = (At Node.stage2_template_approval
                 (with_template_stages (fallback_stages template) state), w')).
Proof.
  intros Hhttp Htpl template. split.
  - assert (Hrun : exists w', stage1_fetch_context state w
                     = (Ok (with_template_options TEMPLATE_OPTIONS state), w')).
    { unfold stage1_fetch_context, try_except, bind, lift,
        ReasonerAPI.fetch_context, ReasonerAPI.call.
      destruct (student_id state) as [sid|]; [rewrite Hhttp |];
        eexists; reflexivity. }
    destruct Hrun as [w' Hrun]. exists w'. split; [exact Hrun |].
    cbn [step node_fn]. rewrite Hrun. reflexivity.
  - assert (Hrun : exists w', init_template state w
                     = (Ok (with_template_stages (fallback_stages template) state), w')).
    { unfold init_template, try_except, bind, ReasonerAPI.fetch_template.
      fold template. destruct template as [name|]; [rewrite Htpl |];
        eexists; reflexivity. }
    destruct Hrun as [w' Hrun]. exists w'. split; [exact Hrun |].
    cbn [step node_fn]. rewrite Hrun. reflexivity.
Qed.

Lemma not_found_recovered_locally_witness :
  exists w',
    stage1_fetch_context initial_state timeout_world
    = (Ok (with_template_options TEMPLATE_OPTIONS initial_state), w').
Proof.
  destruct (not_found_recovered_locally initial_state timeout_world Timeout
              eq_refl eq_refl) as [(w' & Hrun & _) _].
  exists w'. exact Hrun.
Defined.

(** C3 as stated fails: with a reasoner that answers the context and the
    template requests with an HTTP error, the run neither fails nor
    stops; it reaches the end marker with a populated [final_output]. *)
Lemma not_found_run_completes :
  http not_found_world 0 = Raises (HTTPError 500)
  /\ templates not_found_world 2 = TRaises (HTTPError 500)
  /\ exists state w',
       invoke 19 initial_state not_found_world = (Finished state, w')
       /\ is_complete state = Some true
       /\ (exists output, final_output state = Some (Some output))
       /\ PostContext "student_123" ∈ sent w'
       /\ GetTemplate "5e" ∈ sent w'.
Proof.
  split; [reflexivity |]. split; [reflexivity |].
  eexists _, _. split; [vm_compute; reflexivity |].
  split; [reflexivity |]. split; [eexists; reflexivity |].
  split; apply list_elem_of_In; vm_compute; tauto.
Qed.

(** ** Frame: what no stage touches *)

Ltac unfold_stage :=
  unfold node_fn, stage1_fetch_context, stage1_recommend_template,
    stage1_choose_template, init_template, stage2_template_approval,
    stage2_template_adjustment, stage2_prepare_stages, stage2_populate_stage,
    stage2_next_stage, stage3_check_completion, stage3_generate_output,
    ReasonerAPI.fetch_context, ReasonerAPI.recommend_template,
    ReasonerAPI.fetch_template, ReasonerAPI.propose_activities,
    ReasonerAPI.call, try_except, bind, lift, ret, raise, input in *.

(** C9. Whenever a stage of the graph returns, the state it returns has
    the [student_id] of the state it was given; and for every stage
    other than [stage1_fetch_context] it also has the same
    [student_info], [grade], [subject], [slos] and [pre_slos]. *)
Theorem stages_preserve_identity_and_context
    (n : Node.t) (state state' : State) (w w' : World) :
  node_fn n state w = (Ok state', w') ->
  student_id state' = student_id state
  /\ (n <> Node.stage1_fetch_context ->
      student_info state' = student_info state
      /\ grade state' = grade state
      /\ subject state' = subject state
      /\ slos state' = slos state
      /\ pre_slos state' = pre_slos state).
Proof.
  intros Hrun.
  destruct n; unfold_stage;
    repeat case_match; simplify_eq; cbn;
    (split; [congruence | intros Hne; try contradiction; repeat split; congruence]).
Qed.

Lemma stages_preserve_identity_and_context_witness :
  exists state' w',
    node_fn Node.stage2_populate_stage
      (with_current_stage (Some "Engage") initial_state) not_found_world
    = (Ok state', w')
    /\ student_id state' = Some "student_123"
    /\ grade state' = Some (PStr EmptyString).
Proof.
  eexists _, _. split; [vm_compute; reflexivity |].
  destruct (stages_preserve_identity_and_context Node.stage2_populate_stage
              (with_current_stage (Some "Engage") initial_state) _
              not_found_world _ eq_refl) as [Hid Hctx].
  split; [exact Hid |].
  destruct Hctx as (_ & Hgrade & _); [discriminate | exact Hgrade].
Defined.

(** ** Stage sequences that name a stage twice *)

(** C7 at the state the workflow reaches after the operator typed
    [Engage,Explore,Engage] and the first stage was populated: the
    cursor [Engage] equals the last element of [template_stages], yet
    [stage2_next_stage] moves it to [Explore] ([index] finds the first
    [Engage]) and the conditional edge loops back to
    [stage2_populate_stage]. *)
Theorem next_stage_at_repeated_last_name :
  exists state w state',
    invoke 8 initial_state repeated_stage_world = (At Node.stage2_next_stage state, w)
    /\ template_stages state = Some ["Engage"; "Explore"; "Engage"]
    /\ last (default [] (template_stages state)) = get_current_stage state
    /\ stage2_next_stage state w = (Ok state', w)
    /\ get_current_stage state' = Some "Explore"
    /\ should_continue_stages state' = "continue"
    /\ step (At Node.stage2_next_stage state) w
       = (At Node.stage2_populate_stage state', w).
Proof.
  eexists _, _, _.
  split; [vm_compute; reflexivity |].
  repeat split.
Qed.

(** C4 on the run where the operator typed [Engage,Explore,Engage]: the
    entry written under [Engage] on the first visit of the loop is
    replaced by a different one on the second visit. *)
Theorem repeated_stage_entry_replaced :
  exists s1 w1 s2 w2,
    invoke 8 initial_state repeated_stage_world = (At Node.stage2_next_stage s1, w1)
    /\ invoke 12 initial_state repeated_stage_world = (At Node.stage2_next_stage s2, w2)
    /\ template_stages s1 = Some repeated_stages
    /\ default ∅ (stage_activities s1) !! "Engage" = Some [default_activity "Engage"]
    /\ default ∅ (stage_activities s2) !! "Engage" = Some [].
Proof.
  eexists _, _, _, _.
  split; [vm_compute; reflexivity |].
  split; [vm_compute; reflexivity |].
  split; [reflexivity |]. split; vm_compute; reflexivity.
Qed.

Lemma steps_add (a b : nat) (c : config) (w : World) :
  steps (a + b) c w = let '(c', w') := steps a c w in steps b c' w'.
Proof.
  revert c w. induction a as [|a IH]; intros c w; [reflexivity |].
  cbn [Nat.add steps]. destruct (step c w) as [c1 w1]. apply IH.
Qed.

(** On a terminal that never runs dry and with the reasoner down, the
    loop over [Engage,Explore,Engage] maps a looping configuration to a
    looping configuration. *)
Lemma looping_step (c : config) (w : World) :
  looping c -> never_dry w ->
  exists c' w', step c w = (c', w') /\ looping c' /\ never_dry w'.
Proof.
  intros (cur & m & Hcur & Hc) [Hin Hhttp].
  destruct (Hin (stdin_pos w)) as [line Hline].
  destruct Hc as [-> | ->].
  - (* populate: the default activity is offered and a line is read *)
    assert (Hstep : exists m' w',
               step (At Node.stage2_populate_stage (looping_state cur m)) w
               = (At Node.stage2_next_stage (looping_state cur m'), w')
               /\ stdin w' = stdin w /\ http w' = http w).
    { destruct Hcur as [-> | ->];
        cbn [step node_fn]; unfold stage2_populate_stage;
        cbn [get_current_stage looping_state current_stage PyStr.truthy negb];
        unfold try_except, bind, lift, ret, ReasonerAPI.propose_activities,
          ReasonerAPI.call; rewrite Hhttp;
        cbn [PyIter.iter approve_activities]; unfold bind, lift, ret, input;
        cbn [Py.get stdin stdin_pos]; rewrite Hline;
        cbn [approve_activities]; unfold ret;
        eexists _, _; (split; [reflexivity | split; reflexivity]). }
    destruct Hstep as (m' & w' & Hstep & Hs & Hh).
    exists (At Node.stage2_next_stage (looping_state cur m')), w'.
    split; [exact Hstep |]. split.
    + exists cur, m'. split; [exact Hcur | right; reflexivity].
    + split; [rewrite Hs; exact Hin | rewrite Hh; exact Hhttp].
  - (* next: the first occurrence of the name decides *)
    destruct Hcur as [-> | ->].
    + exists (At Node.stage2_populate_stage (looping_state "Explore" m)), w.
      split; [reflexivity |]. split; [| split; assumption].
      exists "Explore", m. split; [right; reflexivity | left; reflexivity].
    + exists (At Node.stage2_populate_stage (looping_state "Engage" m)), w.
      split; [reflexivity |]. split; [| split; assumption].
      exists "Engage", m. split; [left; reflexivity | left; reflexivity].
Qed.

Lemma looping_forever (k : nat) (c : config) (w : World) :
  looping c -> never_dry w ->
  exists c' w', steps k c w = (c', w') /\ looping c'.
Proof.
  revert c w. induction k as [|k IH]; intros c w Hc Hw.
  - exists c, w. split; [reflexivity | exact Hc].
  - destruct (looping_step c w Hc Hw) as (c' & w' & Hstep & Hc' & Hw').
    cbn [steps]. rewrite Hstep. apply IH; assumption.
Qed.

Lemma repeated_stage_run_enters_loop :
  exists w,
    invoke 7 initial_state repeated_stage_world
    = (At Node.stage2_populate_stage (looping_state "Engage" ∅), w)
    /\ never_dry w.
Proof.
  eexists. split; [vm_compute; reflexivity |].
  split; intros i; cbn [stdin http]; [| reflexivity].
  unfold typed. case_match; eexists; reflexivity.
Qed.

(** C2 on the run where the operator typed [Engage,Explore,Engage]: the
    cursor cycles between the two names, so however many steps the
    engine takes the run is still at a node short of the completion
    check: it never reaches the end marker, and the conditional edge
    never selects the completion branch. *)
Theorem repeated_stage_run_never_ends (k : nat) :
  exists n state w,
    invoke k initial_state repeated_stage_world = (At n state, w)
    /\ n <> Node.stage3_check_completion
    /\ n <> Node.stage3_generate_output.
Proof.
  destruct (Nat.le_gt_cases 7 k) as [Hlate | Hearly].
  - destruct repeated_stage_run_enters_loop as (w7 & Hrun & Hdry).
    replace k with (7 + (k - 7)) by lia.
    unfold invoke in *. rewrite steps_add, Hrun.
    destruct (looping_forever (k - 7) _ w7
                (ex_intro _ "Engage" (ex_intro _ ∅ (conj (or_introl eq_refl)
                                                        (or_introl eq_refl))))
                Hdry) as (c & w & Hsteps & cur & m & _ & Hc).
    rewrite Hsteps. destruct Hc as [-> | ->]; eexists _, _, _;
      (split; [reflexivity | split; discriminate]).
  - do 7 (destruct k as [|k];
          [eexists _, _, _; split; [vm_compute; reflexivity | split; discriminate] |]).
    lia.
Qed.

(** ** What a round of the stage loop touches *)

Lemma approve_activities_sent (activities approved : list pyval) (w : World) r w' :
  approve_activities activities approved w = (r, w') -> sent w' = sent w.
Proof.
  revert approved w. induction activities as [|a rest IH]; intros approved w H.
  - inversion H. reflexivity.
  - cbn [approve_activities] in H. unfold bind, lift, input in H.
    repeat case_match; simplify_eq; try reflexivity.
    all: match goal with Hrec : approve_activities _ _ _ = _ |- _ =>
      apply IH in Hrec; exact Hrec end.
Qed.

Lemma populate_stage_effect (state : State) (w : World) r w' :
  stage2_populate_stage state w = (r, w') ->
  (exists new, sent w' = new ++ sent w
               /\ forall stage, stage ∈ activity_requests new ->
                                get_current_stage state = Some stage)
  /\ (forall state', r = Ok state' ->
        template_stages state' = template_stages state
        /\ current_stage state' = current_stage state
        /\ forall key, is_Some (default ∅ (stage_activities state') !! key) ->
             get_current_stage state = Some key
             \/ is_Some (default ∅ (stage_activities state) !! key)).
Proof.
  unfold stage2_populate_stage.
  assert (Hnone : forall s0 w0, ret state w = (s0, w0) ->
            (exists new, sent w0 = new ++ sent w
               /\ forall stage, stage ∈ activity_requests new ->
                                get_current_stage state = Some stage)
            /\ (forall state', s0 = Ok state' ->
                  template_stages state' = template_stages state
                  /\ current_stage state' = current_stage state
                  /\ forall key, is_Some (default ∅ (stage_activities state') !! key) ->
                       get_current_stage state = Some key
                       \/ is_Some (default ∅ (stage_activities state) !! key))).
  { intros s0 w0 H. inversion H. subst. split.
    - exists []. split; [reflexivity |]. intros stage Hin. inversion Hin.
    - intros state' Heq. inversion Heq. subst. repeat split. intros key Hk.
      right. exact Hk. }
  destruct (get_current_stage state) as [cur|] eqn:Hcur; [| apply Hnone].
  destruct (PyStr.truthy cur); cbn [negb]; [| apply Hnone].
  clear Hnone. intros H.
  unfold try_except, bind, lift, ret, ReasonerAPI.propose_activities,
    ReasonerAPI.call in H.
  assert (Hsent : sent w' = [PostActivities cur
                    (PDict (("stage", PStr cur) :: context_fields state))] ++ sent w).
  { repeat case_match; simplify_eq; cbn [sent app]; try reflexivity;
      match goal with Hrec : approve_activities _ _ _ = _ |- _ =>
        apply approve_activities_sent in Hrec; exact Hrec end. }
  split.
  - eexists. split; [exact Hsent |]. cbn. intros stage Hin.
    apply list_elem_of_singleton in Hin. congruence.
  - intros state' ->. repeat case_match; simplify_eq;
      (split; [reflexivity | split; [reflexivity |]]);
      cbn [stage_activities with_stage_activities default from_option id];
      intros key Hk; destruct (decide (cur = key)) as [-> | Hne];
      try (left; reflexivity);
      right; rewrite lookup_insert_ne in Hk by exact Hne; exact Hk.
Qed.

Lemma next_stage_effect (state : State) (w : World) r w' :
  stage2_next_stage state w = (r, w') ->
  w' = w
  /\ forall state', r = Ok state' ->
       template_stages state' = template_stages state
       /\ stage_activities state' = stage_activities state
       /\ forall x, get_current_stage state' = Some x ->
                    x ∈ default [] (template_stages state).
Proof.
  unfold stage2_next_stage, ret, raise. intros H.
  repeat case_match; simplify_eq; (split; [reflexivity |]);
    intros state' Heq; simplify_eq;
    (split; [reflexivity | split; [reflexivity |]]);
    cbn [get_current_stage current_stage with_current_stage];
    intros x Hx; simplify_eq.
  eapply list_elem_of_lookup_2. eassumption.
Qed.

(** ** The stage loop over a sequence without repeated names *)

Lemma index_NoDup (L : list string) (i : nat) (x : string) :
  NoDup L -> L !! i = Some x -> index x L = Some i.
Proof.
  intros Hnd. revert i. induction Hnd as [|y r Hnotin Hnd IH]; intros i Hi.
  - discriminate Hi.
  - cbn [index]. destruct i as [|i]; cbn in Hi.
    + inversion Hi. rewrite String.eqb_refl. reflexivity.
    + destruct (String.eqb y x) eqn:E.
      * apply String.eqb_eq in E. subst y. exfalso. apply Hnotin.
        eapply list_elem_of_lookup_2. exact Hi.
      * rewrite (IH i Hi). reflexivity.
Qed.

Lemma steps_failed (k : nat) (n : Node.t) (e : exn) (w : World) :
  steps k (Failed n e) w = (Failed n e, w).
Proof. induction k as [|k IH]; [reflexivity | exact IH]. Qed.

Lemma next_stage_run (L : list string) (i : nat) (cur : string) (s : State) (w : World) :
  NoDup L ->
  Forall (fun x => PyStr.truthy x = true) L ->
  template_stages s = Some L ->
  L !! i = Some cur ->
  get_current_stage s = Some cur ->
  step (At Node.stage2_next_stage s) w
  = (match L !! (i + 1) with
     | Some nxt => At Node.stage2_populate_stage (with_current_stage (Some nxt) s)
     | None => At Node.stage3_check_completion (with_current_stage None s)
     end, w).
Proof.
  intros Hnd Hall Hst Hi Hcur.
  assert (Htruthy : PyStr.truthy cur = true).
  { rewrite Forall_forall in Hall. apply Hall.
    eapply list_elem_of_lookup_2. exact Hi. }
  cbn [step node_fn]. unfold stage2_next_stage.
  rewrite Hcur, Hst, Htruthy. cbn [default from_option id].
  rewrite (index_NoDup L i cur Hnd Hi).
  destruct (L !! (i + 1)) as [nxt|] eqn:Hnext.
  - assert (Hlt : (Z.of_nat i <? Z.of_nat (List.length L) - 1)%Z = true).
    { apply Z.ltb_lt. apply lookup_lt_Some in Hnext. lia. }
    assert (Hn : PyStr.truthy nxt = true).
    { rewrite Forall_forall in Hall. apply Hall.
      eapply list_elem_of_lookup_2. exact Hnext. }
    rewrite Hlt. unfold ret. cbn [successor].
    unfold should_continue_stages, get_current_stage.
    cbn [current_stage with_current_stage]. rewrite Hn. reflexivity.
  - assert (Hge : (Z.of_nat i <? Z.of_nat (List.length L) - 1)%Z = false).
    { apply Z.ltb_ge. apply lookup_ge_None in Hnext. lia. }
    rewrite Hge. reflexivity.
Qed.

(** With the cursor on the [i]-th of the [i + remaining] names of a
    duplicate-free sequence, the loop is left within [2 * remaining]
    steps. *)
Lemma stage_loop_terminates (L : list string) :
  NoDup L ->
  Forall (fun x => PyStr.truthy x = true) L ->
  forall (remaining i : nat) (cur : string) (s : State) (w : World),
    List.length L = i + remaining ->
    template_stages s = Some L ->
    L !! i = Some cur ->
    get_current_stage s = Some cur ->
    exists c w',
      steps (2 * remaining) (At Node.stage2_populate_stage s) w = (c, w')
      /\ loop_left L c.
Proof.
  intros Hnd Hall. induction remaining as [|remaining IH];
    intros i cur s w Hlen Hst Hi Hcur.
  - apply lookup_lt_Some in Hi. lia.
  - replace (2 * S remaining) with (2 + 2 * remaining) by lia.
    rewrite steps_add. cbn [steps]. cbn [step node_fn].
    destruct (stage2_populate_stage s w) as [[s1|e] w1] eqn:Hpop.
    + destruct (populate_stage_effect s w _ _ Hpop) as [_ Hok].
      destruct (Hok s1 eq_refl) as (Hst1 & Hcur1 & _).
      cbn [successor].
      assert (Hcur' : get_current_stage s1 = Some cur).
      { unfold get_current_stage in *. rewrite Hcur1. exact Hcur. }
      rewrite Hst in Hst1.
      rewrite (next_stage_run L i cur s1 w1 Hnd Hall Hst1 Hi Hcur').
      destruct (L !! (i + 1)) as [nxt|] eqn:Hnext.
      * apply (IH (i + 1) nxt); [lia | exact Hst1 | exact Hnext | reflexivity].
      * apply lookup_ge_None in Hnext. assert (remaining = 0) as -> by lia.
        eexists _, _. split; [reflexivity |]. right.
        eexists. split; [reflexivity |]. split; [reflexivity | exact Hst1].
    + cbn [step]. rewrite steps_failed.
      eexists _, _. split; [reflexivity |]. left. eauto.
Qed.

(** From [stage2_prepare_stages], a run over a duplicate-free sequence
    of non-empty names ends, with the end marker reached or a node
    failed, within [2 * length L + 5] steps. *)
Lemma run_terminates_without_repeats (L : list string) (s : State) (w : World) :
  NoDup L ->
  Forall (fun x => PyStr.truthy x = true) L ->
  template_stages s = Some L ->
  exists c w',
    steps (2 * List.length L + 5) (At Node.stage2_prepare_stages s) w = (c, w')
    /\ ((exists n e, c = Failed n e)
        \/ exists s', c = Finished s' /\ template_stages s' = Some L
                      /\ is_Some (is_complete s') /\ is_Some (final_output s')).
Proof.
  intros Hnd Hall Hst.
  destruct L as [|x r] eqn:HL.
  - cbn [List.length Nat.mul Nat.add steps step node_fn].
    unfold stage2_prepare_stages, ret. cbn [successor]. rewrite Hst. cbn.
    eexists _, _. split; [reflexivity |]. right.
    eexists. split; [reflexivity |]. repeat split; eauto.
  - rewrite <- HL in *.
    replace (2 * List.length L + 5) with (1 + (2 * List.length L + (2 + 2))) by lia.
    rewrite steps_add. cbn [steps step node_fn]. unfold stage2_prepare_stages, ret.
    cbn [successor]. rewrite Hst. cbn [default from_option id].
    rewrite steps_add.
    destruct (stage_loop_terminates L Hnd Hall (List.length L) 0 x
                (with_stage_activities (default ∅ (stage_activities s))
                   (with_current_stage (head L) s)) w)
      as (c & w' & -> & [(n & e & ->) | (s' & -> & _ & Hst')]);
      [lia | exact Hst | rewrite HL; reflexivity | rewrite HL; reflexivity | |].
    + rewrite steps_failed. eexists _, _. split; [reflexivity |]. left. eauto.
    + rewrite steps_add. cbn. eexists _, _. split; [reflexivity |]. right.
      eexists. split; [reflexivity |]. repeat split; eauto.
Qed.

(** Advancing from the last name of a duplicate-free sequence clears the
    cursor and takes the completion branch. *)
Lemma next_stage_at_last_unique (L : list string) (cur : string) (s : State) (w : World) :
  NoDup L ->
  Forall (fun x => PyStr.truthy x = true) L ->
  template_stages s = Some L ->
  last L = Some cur ->
  get_current_stage s = Some cur ->
  stage2_next_stage s w = (Ok (with_current_stage None s), w)
  /\ should_continue_stages (with_current_stage None s) = "complete"
  /\ step (At Node.stage2_next_stage s) w
     = (At Node.stage3_check_completion (with_current_stage None s), w).
Proof.
  intros Hnd Hall Hst Hlast Hcur.
  rewrite last_lookup in Hlast.
  assert (Hnone : L !! (Nat.pred (List.length L) + 1) = None).
  { apply lookup_ge_None. lia. }
  pose proof (next_stage_run L _ cur s w Hnd Hall Hst Hlast Hcur) as Hstep.
  rewrite Hnone in Hstep. split; [| split; [reflexivity | exact Hstep]].
  cbn [step node_fn] in Hstep.
  destruct (stage2_next_stage s w) as [[s'|e] w'] eqn:Hrun.
  - pose proof (next_stage_effect s w _ _ Hrun) as [-> _].
    unfold stage2_next_stage, ret, raise in Hrun.
    repeat case_match; simplify_eq; reflexivity.
  - inversion Hstep.
Qed.

(** * Further properties of the workflow *)

(** ** Where a run can fail *)

Lemma approve_activities_failure (activities approved : list pyval) (w : World) e w' :
  approve_activities activities approved w = (Err e, w') ->
  e = EOFError \/ e = AttributeError.
Proof.
  revert approved w. induction activities as [|a rest IH]; intros approved w H.
  - discriminate H.
  - cbn [approve_activities] in H. unfold bind, lift, input in H.
    destruct a; cbn [Py.get] in H; simplify_eq; auto.
    destruct (stdin w (stdin_pos w)); simplify_eq; auto.
    eapply IH. exact H.
Qed.

Lemma node_failure (n : Node.t) (s : State) (w w' : World) (e : exn) :
  node_fn n s w = (Err e, w') -> can_fail n e = true.
Proof.
  intros H. destruct n; unfold_stage;
    repeat case_match; simplify_eq; try reflexivity;
    try match goal with
        | Hp : PyIter.iter ?v = Err _ |- _ =>
            destruct v; cbn in Hp; simplify_eq; reflexivity
        | Hp : Py.get ?v _ _ = Err _ |- _ =>
            destruct v; cbn in Hp; simplify_eq; reflexivity
        | Hp : py_upper ?v = Err _ |- _ =>
            destruct v; cbn in Hp; simplify_eq; reflexivity
        | Hp : approve_activities _ _ _ = (Err _, _) |- _ =>
            apply approve_activities_failure in Hp as [-> | ->]; reflexivity
        | Hlt : (_ <? _)%Z = true, Hout : _ !! _ = None |- _ =>
            (* the index read by [stage2_next_stage] is in range *)
            apply Z.ltb_lt in Hlt; apply lookup_ge_None in Hout; lia
        end.
Qed.

Lemma successor_defined (n : Node.t) (s : State) :
  exists t, successor n s = Ok t.
Proof.
  destruct n; cbn [successor]; try (eexists; reflexivity).
  unfold should_continue_stages. repeat case_match; simplify_eq; eexists; reflexivity.
Qed.

Lemma steps_terminal (k : nat) (c : config) (w : World) :
  terminal c -> steps k c w = (c, w).
Proof.
  intros Hc. induction k as [|k IH]; [reflexivity |].
  destruct c; [contradiction | exact IH | exact IH].
Qed.

(** On ASCII text, and as long as [template_stages] is a list of
    strings (the state starts with one or none, and every reply to the
    template request carries such a list or no [stages] at all), a run
    fails only where the operator or a malformed proposal can make it
    fail: a failed configuration names one of [stage1_choose_template],
    [stage2_template_approval], [stage2_template_adjustment],
    [stage2_populate_stage], with [EOFError], or, for the first and the
    last, [AttributeError], or, for the last, [TypeError].  Under that
    proviso the other seven stages and the conditional edge never fail.
    A reply whose [stages] is something else, [null] say, is stored
    unchecked by [init_template] and is not covered: [main.py] then
    raises [TypeError] in [stage3_generate_output]. *)
Theorem run_fails_only_at_prompts
    (k : nat) (n n' : Node.t) (s : State) (w w' : World) (e : exn) :
  steps k (At n s) w = (Failed n' e, w') ->
  can_fail n' e = true.
Proof.
  revert n s w. induction k as [|k IH]; intros n s w H.
  - discriminate H.
  - cbn [steps step] in H.
    destruct (node_fn n s w) as [[s1|e1] w1] eqn:Hrun.
    + destruct (successor_defined n s1) as [t Ht]. rewrite Ht in H.
      destruct t as [n1|].
      * exact (IH n1 s1 w1 H).
      * rewrite steps_terminal in H by exact I. discriminate H.
    + rewrite steps_terminal in H by exact I. inversion H; subst.
      exact (node_failure _ _ _ _ _ Hrun).
Qed.

Lemma run_fails_only_at_prompts_witness :
  exists n e w',
    steps 3 (At entry_point initial_state) timeout_world = (Failed n e, w')
    /\ can_fail n e = true.
Proof.
  eexists _, _, _. split; [vm_compute; reflexivity |].
  eapply (run_fails_only_at_prompts 3 entry_point _ initial_state timeout_world).
  vm_compute. reflexivity.
Defined.

(** ** Keys that are written but never read *)

Ltac state_fields :=
  cbn [student_id student_info grade subject slos pre_slos template_options
       chosen_template template_recommendation template_stages
       template_approved template_adjustments current_stage stage_activities
       is_complete final_output
       with_context with_template_options with_template_recommendation
       with_chosen_template with_template_stages with_template_approved
       with_template_adjustments with_current_stage with_stage_activities
       with_is_complete with_final_output] in *.

(** A stage run on a state and on its read part does the same thing. *)
Lemma node_reads (n : Node.t) (s : State) (w : World) :
  match node_fn n s w, node_fn n (read_part s) w with
  | (Ok a, w1), (Ok b, w2) =>
      read_part a = read_part b /\ w1 = w2
      /\ (n = Node.stage3_generate_output -> final_output a = final_output b)
  | (Err e1, w1), (Err e2, w2) => e1 = e2 /\ w1 = w2
  | _, _ => False
  end.
Proof.
  destruct n; unfold_stage;
    unfold get_current_stage, get_chosen_template, context_fields, read_part;
    state_fields;
    repeat case_match; simplify_eq; state_fields;
    repeat split; (reflexivity || discriminate).
Qed.

Lemma successor_reads (n : Node.t) (a b : State) :
  read_part a = read_part b -> successor n a = successor n b.
Proof.
  intros H. apply (f_equal current_stage) in H. unfold read_part in H.
  state_fields.
  destruct n; cbn [successor]; try reflexivity.
  unfold should_continue_stages, get_current_stage. rewrite H. reflexivity.
Qed.

Lemma same_course_step (c1 c2 : config) (w : World) :
  same_course c1 c2 ->
  same_course (step c1 w).1 (step c2 w).1 /\ (step c1 w).2 = (step c2 w).2.
Proof.
  destruct c1 as [n1 s1 | s1 | n1 e1], c2 as [n2 s2 | s2 | n2 e2];
    cbn [same_course]; try contradiction;
    [| intros H; split; [exact H | reflexivity]
     | intros H; split; [exact H | reflexivity]].
  intros [<- Hread]. cbn [step].
  pose proof (node_reads n1 s1 w) as H1. pose proof (node_reads n1 s2 w) as H2.
  rewrite Hread in H1.
  destruct (node_fn n1 s1 w) as [[a1|e1] w1], (node_fn n1 s2 w) as [[a2|e2] w2],
    (node_fn n1 (read_part s2) w) as [[b|e] w3]; try contradiction.
  - destruct H1 as (Ha & -> & Hout1), H2 as (Hb & -> & Hout2).
    assert (Hab : read_part a1 = read_part a2) by congruence.
    rewrite (successor_reads n1 a1 a2 Hab).
    destruct (successor n1 a2) as [[n'|]|e'] eqn:Hnext; cbn [fst snd same_course];
      repeat split; try assumption.
    destruct n1; cbn [successor] in Hnext; try discriminate Hnext;
      [unfold should_continue_stages, stage_routes in Hnext;
       repeat case_match; simplify_eq
      | rewrite Hout1, Hout2 by reflexivity; reflexivity].
  - destruct H1 as [-> ->], H2 as [-> ->]. cbn. repeat split.
Qed.

(** The answer to the approval prompt steers nothing, and neither do the
    other keys no stage reads ([template_options],
    [template_adjustments], [is_complete], [final_output]): two runs
    that start at the same node from states differing in those keys only
    stay in step, read and request the same things, fail or finish
    together and, at the end marker, carry the same [final_output]. *)
Theorem unread_keys_do_not_steer (k : nat) (c1 c2 : config) (w : World) :
  same_course c1 c2 ->
  same_course (steps k c1 w).1 (steps k c2 w).1
  /\ (steps k c1 w).2 = (steps k c2 w).2.
Proof.
  revert c1 c2 w. induction k as [|k IH]; intros c1 c2 w Hsame.
  - split; [exact Hsame | reflexivity].
  - cbn [steps]. destruct (same_course_step c1 c2 w Hsame) as [Hc Hw].
    destruct (step c1 w) as [c1' w1], (step c2 w) as [c2' w2].
    cbn [fst snd] in Hc, Hw. subst w2. exact (IH c1' c2' w1 Hc).
Qed.

Lemma unread_keys_do_not_steer_witness :
  same_course
    (steps 9 (At Node.stage2_template_adjustment
                (with_template_approved (Some true) five_e_state))
           adjusting_world).1
    (steps 9 (At Node.stage2_template_adjustment
                (with_template_approved (Some false) five_e_state))
           adjusting_world).1.
Proof.
  apply (unread_keys_do_not_steer 9
           (At Node.stage2_template_adjustment
               (with_template_approved (Some true) five_e_state))
           (At Node.stage2_template_adjustment
               (with_template_approved (Some false) five_e_state))
           adjusting_world).
  split; reflexivity.
Defined.

(** ** More on the template choice *)

Lemma is_space_lower_char (c : ascii) :
  PyStr.is_space (PyStr.lower_char c) = PyStr.is_space c.
Proof.
  destruct c as [b0 b1 b2 b3 b4 b5 b6 b7].
  destruct b0, b1, b2, b3, b4, b5, b6, b7; reflexivity.
Qed.

Lemma upper_lower_char (c : ascii) :
  PyStr.upper_char (PyStr.lower_char c) = PyStr.upper_char c.
Proof.
  destruct c as [b0 b1 b2 b3 b4 b5 b6 b7].
  destruct b0, b1, b2, b3, b4, b5, b6, b7; reflexivity.
Qed.

Lemma upper_upper_char (c : ascii) :
  PyStr.upper_char (PyStr.upper_char c) = PyStr.upper_char c.
Proof.
  destruct c as [b0 b1 b2 b3 b4 b5 b6 b7].
  destruct b0, b1, b2, b3, b4, b5, b6, b7; reflexivity.
Qed.

Lemma upper_lower (s : string) : PyStr.upper (PyStr.lower s) = PyStr.upper s.
Proof.
  induction s as [|c r IH]; [reflexivity |].
  cbn [PyStr.lower PyStr.upper]. rewrite upper_lower_char, IH. reflexivity.
Qed.

Lemma upper_upper (s : string) : PyStr.upper (PyStr.upper s) = PyStr.upper s.
Proof.
  induction s as [|c r IH]; [reflexivity |].
  cbn [PyStr.upper]. rewrite upper_upper_char, IH. reflexivity.
Qed.

Lemma lstrip_lower (s : string) :
  PyStr.lstrip (PyStr.lower s) = PyStr.lower (PyStr.lstrip s).
Proof.
  induction s as [|c r IH]; [reflexivity |].
  cbn [PyStr.lower PyStr.lstrip]. rewrite is_space_lower_char.
  destruct (PyStr.is_space c); [exact IH | reflexivity].
Qed.

Lemma rstrip_lower (s : string) :
  PyStr.rstrip (PyStr.lower s) = PyStr.lower (PyStr.rstrip s).
Proof.
  induction s as [|c r IH]; [reflexivity |].
  cbn [PyStr.lower PyStr.rstrip]. rewrite IH, is_space_lower_char.
  destruct (PyStr.rstrip r); cbn [PyStr.lower]; [| reflexivity].
  destruct (PyStr.is_space c); reflexivity.
Qed.

Lemma strip_lower (s : string) :
  PyStr.strip (PyStr.lower s) = PyStr.lower (PyStr.strip s).
Proof. unfold PyStr.strip. rewrite lstrip_lower, rstrip_lower. reflexivity. Qed.

Lemma truthy_lower (s : string) : PyStr.truthy (PyStr.lower s) = PyStr.truthy s.
Proof. destruct s; reflexivity. Qed.

Lemma normalize_choice_lower d (line : string) :
  normalize_choice d (PyStr.lower line) = normalize_choice d line.
Proof.
  unfold normalize_choice. rewrite strip_lower, truthy_lower.
  destruct (PyStr.truthy (PyStr.strip line)); [| reflexivity].
  cbn [py_upper]. rewrite upper_lower. reflexivity.
Qed.

Lemma normalize_choice_fixed d d' (line c : string) :
  normalize_choice d line = Ok c -> normalize_choice d' c = Ok c.
Proof.
  intros H. apply normalize_choice_in_enum in H. unfold TEMPLATE_ENUM in H.
  repeat (apply elem_of_cons in H as [-> | H]; [reflexivity |]).
  apply elem_of_nil in H. contradiction.
Qed.

(** The template choice does not depend on the case of what is typed:
    on two terminals whose next lines differ in case only,
    [stage1_choose_template] has the same outcome, be it the chosen
    template or the exception raised. *)
Theorem choose_template_ignores_case (state : State) (w1 w2 : World) (line : string) :
  stdin w1 (stdin_pos w1) = Some line ->
  stdin w2 (stdin_pos w2) = Some (PyStr.lower line) ->
  (stage1_choose_template state w1).1 = (stage1_choose_template state w2).1.
Proof.
  intros H1 H2.
  destruct (default (PDict []) (template_recommendation state))
    as [| | | | |l|d] eqn:Hrec;
    try (unfold stage1_choose_template; rewrite Hrec; reflexivity).
  rewrite (choose_template_run state w1 d line Hrec H1),
    (choose_template_run state w2 d _ Hrec H2), normalize_choice_lower.
  reflexivity.
Qed.

Lemma choose_template_ignores_case_witness :
  (stage1_choose_template montessori_state
     (mkWorld (typed ["PBL"] None) 0 (http timeout_world)
              (templates timeout_world) 0 [])).1
  = (stage1_choose_template montessori_state
       (mkWorld (typed ["pbl"] None) 0 (http timeout_world)
                (templates timeout_world) 0 [])).1.
Proof.
  apply (choose_template_ignores_case montessori_state _ _ "PBL"); reflexivity.
Defined.

(** The choice is stable: if [stage1_choose_template] settles on a
    template for the line typed, then typing that template's name at any
    later run of the stage, whatever the recommendation dict then is,
    settles on it again. *)
Theorem choose_template_stable
    (state state' other : State) (w w' v : World) :
  stage1_choose_template state w = (Ok state', w') ->
  (exists d, default (PDict []) (template_recommendation other) = PDict d) ->
  stdin v (stdin_pos v) = get_chosen_template state' ->
  exists v',
    stage1_choose_template other v
    = (Ok (with_chosen_template (get_chosen_template state') other), v').
Proof.
  intros Hrun [d' Hrec] Hline.
  apply choose_template_ok in Hrun as (d & line & c & _ & _ & Hn & ->).
  cbn [get_chosen_template chosen_template with_chosen_template] in Hline |- *.
  rewrite (choose_template_run other v d' c Hrec Hline),
    (normalize_choice_fixed d d' line c Hn).
  eexists. reflexivity.
Qed.

Lemma choose_template_stable_witness :
  exists v',
    stage1_choose_template montessori_state
      (mkWorld (typed ["7E"] None) 0 (http timeout_world)
               (templates timeout_world) 0 [])
    = (Ok (with_chosen_template (Some "7E") montessori_state), v').
Proof.
  apply (choose_template_stable montessori_state
           (with_chosen_template (Some "7E") montessori_state) montessori_state
           (mkWorld (typed [" 7e "] None) 0 (http timeout_world)
                    (templates timeout_world) 0 [])
           (mkWorld (typed [" 7e "] None) 1 (http timeout_world)
                    (templates timeout_world) 0 [])).
  - reflexivity.
  - eexists. reflexivity.
  - reflexivity.
Defined.

(** A recommendation that is present but not a dict (Python's [None], as
    in the initial state of the script, or any other JSON value the
    reasoner may have answered) makes [stage1_choose_template] raise
    [AttributeError] before the terminal is read: the default [{}] of
    [state.get] only covers a missing key. *)
Theorem choose_template_needs_dict (state : State) (w : World) (v : pyval) :
  template_recommendation state = Some v ->
  (forall d, v <> PDict d) ->
  stage1_choose_template state w = (Err AttributeError, w).
Proof.
  intros Hrec Hnot. unfold stage1_choose_template. rewrite Hrec.
  destruct v; try reflexivity. exfalso. exact (Hnot d eq_refl).
Qed.

Lemma choose_template_needs_dict_witness :
  stage1_choose_template initial_state return_key_world
  = (Err AttributeError, return_key_world).
Proof.
  apply (choose_template_needs_dict initial_state return_key_world PNone);
    [reflexivity | discriminate].
Defined.

(** ** Stripping ASCII text *)

Lemma lstrip_starts_clean (s : string) : starts_clean (PyStr.lstrip s).
Proof.
  induction s as [|c r IH]; [exact I |].
  cbn [PyStr.lstrip]. destruct (PyStr.is_space c) eqn:E; [exact IH | exact E].
Qed.

Lemma rstrip_starts_clean (s : string) :
  starts_clean s -> starts_clean (PyStr.rstrip s).
Proof.
  destruct s as [|c r]; [intros _; exact I |].
  cbn [starts_clean PyStr.rstrip]. intros Hc.
  destruct (PyStr.rstrip r); [rewrite Hc |]; exact Hc.
Qed.

Lemma lstrip_clean (s : string) : starts_clean s -> PyStr.lstrip s = s.
Proof.
  destruct s as [|c r]; [reflexivity |].
  cbn [starts_clean PyStr.lstrip]. intros ->. reflexivity.
Qed.

Lemma rstrip_rstrip (s : string) : PyStr.rstrip (PyStr.rstrip s) = PyStr.rstrip s.
Proof.
  induction s as [|c r IH]; [reflexivity |].
  cbn [PyStr.rstrip]. destruct (PyStr.rstrip r) as [|c' r'] eqn:E.
  - destruct (PyStr.is_space c) eqn:Hc; [reflexivity |].
    cbn [PyStr.rstrip]. rewrite Hc. reflexivity.
  - cbn [PyStr.rstrip]. cbn [PyStr.rstrip] in IH. rewrite IH. reflexivity.
Qed.

Lemma strip_strip (s : string) : PyStr.strip (PyStr.strip s) = PyStr.strip s.
Proof.
  unfold PyStr.strip.
  rewrite (lstrip_clean (PyStr.rstrip (PyStr.lstrip s)))
    by apply rstrip_starts_clean, lstrip_starts_clean.
  apply rstrip_rstrip.
Qed.

Lemma has_char_lstrip (c : ascii) (s : string) :
  has_char c (PyStr.lstrip s) = true -> has_char c s = true.
Proof.
  induction s as [|x r IH]; [discriminate |].
  cbn [PyStr.lstrip]. destruct (PyStr.is_space x); [| exact id].
  intros H. cbn [has_char]. rewrite (IH H). apply orb_true_r.
Qed.

Lemma has_char_rstrip (c : ascii) (s : string) :
  has_char c (PyStr.rstrip s) = true -> has_char c s = true.
Proof.
  induction s as [|x r IH]; [discriminate |].
  cbn [PyStr.rstrip]. destruct (PyStr.rstrip r) as [|c' r'].
  - destruct (PyStr.is_space x); [discriminate |]. cbn [has_char].
    rewrite orb_false_r. intros ->. reflexivity.
  - cbn [has_char] in *. intros H. apply orb_true_iff in H as [-> | H];
      [reflexivity |]. rewrite (IH H). apply orb_true_r.
Qed.

Lemma split_fields_lack_sep (sep : ascii) (s f : string) :
  f ∈ PyStr.split sep s -> has_char sep f = false.
Proof.
  revert f. induction s as [|x r IH]; intros f Hin.
  - cbn [PyStr.split] in Hin. apply list_elem_of_singleton in Hin. subst.
    reflexivity.
  - cbn [PyStr.split] in Hin. destruct (Ascii.eqb x sep) eqn:E.
    + apply elem_of_cons in Hin as [-> | Hin]; [reflexivity | exact (IH f Hin)].
    + destruct (PyStr.split sep r) as [|g gs].
      * apply list_elem_of_singleton in Hin. subst. cbn [has_char].
        rewrite E. reflexivity.
      * apply elem_of_cons in Hin as [-> | Hin].
        -- cbn [has_char]. rewrite E. apply IH, elem_of_cons. left. reflexivity.
        -- apply IH, elem_of_cons. right. exact Hin.
Qed.

(** ** The hard-coded sequences *)

Lemma fallback_stages_distinct (template : option string) :
  NoDup (fallback_stages template)
  /\ Forall (fun x => PyStr.truthy x = true) (fallback_stages template)
  /\ List.length (fallback_stages template) <= 7.
Proof.
  unfold fallback_stages. destruct template as [t|];
    repeat case_match;
    (split; [apply (bool_decide_unpack _); vm_compute; reflexivity |]);
    (split; [repeat constructor | cbn; lia]).
Qed.

(** ** Populating a stage *)

Lemma approve_activities_ok (activities approved result : list pyval) (w w' : World) :
  approve_activities activities approved w = (Ok result, w') ->
  (exists kept, result = approved ++ kept /\ kept `sublist_of` activities)
  /\ w' = mkWorld (stdin w) (stdin_pos w + List.length activities) (http w)
                  (templates w) (http_pos w) (sent w)
  /\ Forall (fun a => exists d, a = PDict d) activities.
Proof.
  revert approved w. induction activities as [|a rest IH]; intros approved w H.
  - inversion H. subst. split; [exists []; split; [symmetry; apply app_nil_r | constructor] |].
    split; [| constructor]. destruct w'. cbn. rewrite Nat.add_0_r. reflexivity.
  - cbn [approve_activities] in H. unfold bind, lift, input in H.
    destruct a as [| | | | | |d]; cbn [Py.get] in H; try discriminate H.
    destruct (stdin w (stdin_pos w)) as [line|]; [| discriminate H].
    apply IH in H as ((kept & -> & Hsub) & -> & Hall).
    cbn [stdin stdin_pos http templates http_pos sent List.length].
    split; [| split].
    + destruct (String.eqb (PyStr.lower (PyStr.strip line)) "n").
      * exists kept. split; [reflexivity | apply sublist_cons, Hsub].
      * exists (PDict d :: kept). split; [rewrite <- app_assoc; reflexivity |].
        apply sublist_skip, Hsub.
    + f_equal. lia.
    + constructor; [eexists; reflexivity | exact Hall].
Qed.

(** What a successful [stage2_populate_stage] at a non-empty cursor has
    done. *)
Lemma populate_stage_run (state state' : State) (w w' : World) (cur : string) :
  get_current_stage state = Some cur ->
  PyStr.truthy cur = true ->
  stage2_populate_stage state w = (Ok state', w') ->
  exists items approved,
    PyIter.iter (proposals_offered w cur) = Ok items
    /\ approved `sublist_of` items
    /\ state' = with_stage_activities
                  (<[cur := approved]> (default ∅ (stage_activities state))) state
    /\ w' = mkWorld (stdin w) (stdin_pos w + List.length items) (http w)
                    (templates w) (S (http_pos w))
                    (PostActivities cur
                       (PDict (("stage", PStr cur) :: context_fields state))
                     :: sent w).
Proof.
  intros Hcur Htruthy H. unfold stage2_populate_stage in H.
  rewrite Hcur, Htruthy in H. cbn [negb] in H.
  unfold try_except, bind, lift, ret, ReasonerAPI.propose_activities,
    ReasonerAPI.call in H.
  unfold proposals_offered.
  destruct (http w (http_pos w)) as [e|body].
  - cbn [PyIter.iter] in H |- *.
    destruct (approve_activities [default_activity cur] [] _) as [[r|e'] w1] eqn:Ha;
      [| discriminate H].
    inversion H; subst. apply approve_activities_ok in Ha as ((kept & -> & Hsub) & -> & _).
    exists [default_activity cur], kept. repeat split; assumption.
  - destruct body as [| | | | | |d]; cbn [Py.get] in H;
      try (cbn [PyIter.iter] in H |- *;
           destruct (approve_activities [default_activity cur] [] _)
             as [[r|e'] w1] eqn:Ha; [| discriminate H];
           inversion H; subst;
           apply approve_activities_ok in Ha as ((kept & -> & Hsub) & -> & _);
           exists [default_activity cur], kept; repeat split; assumption).
    unfold default.
    destruct (PyIter.iter (from_option id (PList []) (Py.assoc "activities" d)))
      as [items|e'] eqn:Hiter; [| discriminate H].
    destruct (approve_activities items [] _) as [[r|e'] w1] eqn:Ha; [| discriminate H].
    inversion H; subst. apply approve_activities_ok in Ha as ((kept & -> & Hsub) & -> & _).
    exists items, kept. repeat split; assumption.
Qed.

(** Only what was proposed is stored, one request and one line per
    proposal: when [stage2_populate_stage] returns at a non-empty
    cursor, the list it stores under the cursor is a sub-list, in the
    same order, of the activities offered (the reply's activities, or
    the default activity if the call failed); the rest of
    [stage_activities] and of the state is untouched; exactly one
    request was sent and exactly one line per offered activity read. *)
Theorem populate_stores_approved_offers
    (state state' : State) (w w' : World) (cur : string) :
  get_current_stage state = Some cur ->
  PyStr.truthy cur = true ->
  stage2_populate_stage state w = (Ok state', w') ->
  exists items approved,
    PyIter.iter (proposals_offered w cur) = Ok items
    /\ approved `sublist_of` items
    /\ state' = with_stage_activities
                  (<[cur := approved]> (default ∅ (stage_activities state))) state
    /\ (forall key, key <> cur ->
          default ∅ (stage_activities state') !! key
          = default ∅ (stage_activities state) !! key)
    /\ stdin_pos w' = stdin_pos w + List.length items
    /\ http_pos w' = S (http_pos w)
    /\ activity_requests (sent w') = cur :: activity_requests (sent w).
Proof.
  intros Hcur Htruthy Hrun.
  destruct (populate_stage_run _ _ _ _ _ Hcur Htruthy Hrun)
    as (items & approved & Hiter & Hsub & -> & ->).
  exists items, approved. repeat split; try assumption.
  intros key Hne. cbn. apply lookup_insert_ne. congruence.
Qed.

Lemma populate_stores_approved_offers_witness :
  exists items approved,
    PyIter.iter (proposals_offered not_found_world "Engage") = Ok items
    /\ approved `sublist_of` items.
Proof.
  destruct (populate_stores_approved_offers
              (with_current_stage (Some "Engage") initial_state)
              (with_stage_activities
                 {[ "Engage" := [default_activity "Engage"] ]}
                 (with_current_stage (Some "Engage") initial_state))
              not_found_world
              (mkWorld (stdin not_found_world) 1 (http not_found_world)
                       (templates not_found_world) 1
                       [PostActivities "Engage"
                          (PDict (("stage", PStr "Engage")
                                  :: context_fields initial_state))])
              "Engage" eq_refl eq_refl)
    as (items & approved & Hiter & Hsub & _).
  - vm_compute. reflexivity.
  - exists items, approved. split; assumption.
Defined.

(** A reply that is a JSON object but whose [activities] cannot be
    iterated ([null], a number, a boolean) is not recovered from: the
    [for] loop stands outside the [try] block, so
    [stage2_populate_stage] raises [TypeError] after the request was
    made, nothing is stored, and the run fails at that node. *)
Theorem populate_fails_on_uniterable_activities
    (state : State) (w : World) (cur : string) d (v : pyval) :
  get_current_stage state = Some cur ->
  PyStr.truthy cur = true ->
  http w (http_pos w) = Body (PDict d) ->
  Py.assoc "activities" d = Some v ->
  (forall items, PyIter.iter v <> Ok items) ->
  exists w',
    stage2_populate_stage state w = (Err TypeError, w')
    /\ http_pos w' = S (http_pos w)
    /\ stdin_pos w' = stdin_pos w
    /\ step (At Node.stage2_populate_stage state) w
       = (Failed Node.stage2_populate_stage TypeError, w').
Proof.
  intros Hcur Htruthy Hbody Hact Hiter.
  assert (Hrun : exists w',
             stage2_populate_stage state w = (Err TypeError, w')
             /\ http_pos w' = S (http_pos w) /\ stdin_pos w' = stdin_pos w).
  { unfold stage2_populate_stage. rewrite Hcur, Htruthy. cbn [negb].
    unfold try_except, bind, lift, ret, ReasonerAPI.propose_activities,
      ReasonerAPI.call.
    rewrite Hbody. cbn [Py.get]. rewrite Hact. cbn [from_option id].
    destruct v; try (exfalso; eapply Hiter; reflexivity);
      eexists; (split; [reflexivity | split; reflexivity]). }
  destruct Hrun as (w' & Hrun & Hh & Hs). exists w'.
  repeat split; try assumption. cbn [step node_fn]. rewrite Hrun. reflexivity.
Qed.

Lemma populate_fails_on_uniterable_activities_witness :
  exists w',
    step (At Node.stage2_populate_stage
            (with_current_stage (Some "Engage") initial_state))
         null_activities_world
    = (Failed Node.stage2_populate_stage TypeError, w').
Proof.
  destruct (populate_fails_on_uniterable_activities
              (with_current_stage (Some "Engage") initial_state)
              null_activities_world "Engage"
              [("stage", PStr "Engage"); ("activities", PNone)] PNone
              eq_refl eq_refl eq_refl eq_refl)
    as (w' & _ & _ & _ & Hstep).
  - intros items Hitems. discriminate Hitems.
  - exists w'. exact Hstep.
Defined.

(** ** Advancing the cursor *)

(** [stage2_next_stage] never raises and touches neither the terminal
    nor the reasoner: the index it reads is always in range.  The new
    cursor is the name that follows the first occurrence of the old one
    in [template_stages], and [None] when the old cursor is absent,
    empty, not in the list, or first occurs at the last position. *)
Theorem next_stage_follows_first_occurrence (state : State) (w : World) :
  let stages := default [] (template_stages state) in
  stage2_next_stage state w
  = (Ok (with_current_stage
           (match get_current_stage state with
            | Some cur =>
                if PyStr.truthy cur then
                  match index cur stages with
                  | Some idx => stages !! (idx + 1)
                  | None => None
                  end
                else None
            | None => None
            end) state), w).
Proof.
  intros stages. unfold stage2_next_stage. fold stages.
  destruct (get_current_stage state) as [cur|]; [| reflexivity].
  destruct (PyStr.truthy cur); [| reflexivity].
  destruct (index cur stages) as [idx|]; [| reflexivity].
  destruct (Z.of_nat idx <? Z.of_nat (List.length stages) - 1)%Z eqn:Hlt.
  - destruct (stages !! (idx + 1)) as [nxt|] eqn:Hnext; [reflexivity |].
    apply Z.ltb_lt in Hlt. apply lookup_ge_None in Hnext. lia.
  - apply Z.ltb_ge in Hlt.
    rewrite (proj2 (lookup_ge_None stages (idx + 1))) by lia. reflexivity.
Qed.

(** ** Completion check and output *)

Lemma reported_entry_has_activity (activities : gmap string (list pyval)) (stage : string) :
  has_activity (PDict [("name", PStr stage);
                       ("activities", PList (default [] (activities !! stage)))])
  <-> stage_done activities stage = true.
Proof.
  unfold has_activity, stage_done. cbn.
  destruct (activities !! stage) as [[|a rest]|]; cbn; split;
    try discriminate; try reflexivity.
  - intros (a & rest & H). discriminate H.
  - intros _. eexists _, _. reflexivity.
  - intros (a & rest & H). discriminate H.
Qed.

(** For a state whose [template_stages] is a list of strings or absent
    (any other value is not covered: on [None], [main.py] raises
    [TypeError] in [stage3_generate_output]), the completion check and
    the output agree, and the output does not wait for completeness:
    from [stage3_check_completion] the run reaches the end marker in two
    steps without failing, reading or requesting anything;
    [final_output] lists one entry per element of [template_stages], in
    order and with repetitions; and [is_complete] is true exactly when
    there is at least one entry and every entry lists at least one
    activity.  An incomplete plan is output all the same. *)
Theorem completion_matches_output (state : State) (w : World) :
  exists state' output,
    steps 2 (At Node.stage3_check_completion state) w = (Finished state', w)
    /\ final_output state' = Some (Some output)
    /\ (fun entry => Py.get entry "name" PNone) <$> reported_stages output
       = (fun stage => Ok (PStr stage)) <$> default [] (template_stages state)
    /\ (is_complete state' = Some true
        <-> reported_stages output <> []
            /\ Forall has_activity (reported_stages output)).
Proof.
  eexists _, _. split; [reflexivity |]. split; [reflexivity |].
  state_fields.
  cbn [reported_stages Py.get Py.assoc String.eqb Ascii.eqb Bool.eqb from_option id].
  set (stages := default [] (template_stages state)).
  set (activities := default ∅ (stage_activities state)).
  split.
  - rewrite <- list_fmap_compose. reflexivity.
  - assert (Hall : forallb (stage_done activities) stages = true
                   <-> Forall has_activity
                         (map (fun stage =>
                                 PDict [("name", PStr stage);
                                        ("activities",
                                         PList (default [] (activities !! stage)))])
                              stages)).
    { rewrite forallb_forall, Forall_fmap, Forall_forall. split.
      - intros H x Hx. apply reported_entry_has_activity, H, list_elem_of_In, Hx.
      - intros H x Hx. apply reported_entry_has_activity, H, list_elem_of_In, Hx. }
    destruct stages as [|x r] eqn:E.
    + cbn. split; [discriminate | intros [H _]; contradiction].
    + rewrite <- E in *. split.
      * intros H. split; [rewrite E; discriminate |].
        apply Hall. rewrite E in H |- *. congruence.
      * intros [_ H]. apply Hall in H. rewrite E in H |- *. congruence.
Qed.

(** ** Every stage is requested once *)

(** Over distinct non-empty names, the loop that leaves for the
    completion check has requested proposals for exactly the names from
    the cursor on, in order, and holds an entry for each of them. *)
Lemma stage_loop_requests (L : list string) :
  NoDup L ->
  Forall (fun x => PyStr.truthy x = true) L ->
  forall (remaining i : nat) (cur : string) (s s' : State) (w w' : World),
    List.length L = i + remaining ->
    template_stages s = Some L ->
    L !! i = Some cur ->
    get_current_stage s = Some cur ->
    steps (2 * remaining) (At Node.stage2_populate_stage s) w
    = (At Node.stage3_check_completion s', w') ->
    activity_requests (sent w')
    = reverse (drop i L) ++ activity_requests (sent w)
    /\ template_stages s' = Some L
    /\ (forall x, x ∈ drop i L ->
                  is_Some (default ∅ (stage_activities s') !! x))
    /\ (forall x, is_Some (default ∅ (stage_activities s) !! x) ->
                  is_Some (default ∅ (stage_activities s') !! x)).
Proof.
  intros Hnd Hall. induction remaining as [|remaining IH];
    intros i cur s s' w w' Hlen Hst Hi Hcur Hsteps.
  - apply lookup_lt_Some in Hi. lia.
  - assert (Htruthy : PyStr.truthy cur = true).
    { rewrite Forall_forall in Hall. apply Hall.
      eapply list_elem_of_lookup_2. exact Hi. }
    replace (2 * S remaining) with (2 + 2 * remaining) in Hsteps by lia.
    rewrite steps_add in Hsteps. cbn [steps step node_fn] in Hsteps.
    destruct (stage2_populate_stage s w) as [[s1|e] w1] eqn:Hpop;
      [| cbn [step] in Hsteps; rewrite steps_terminal in Hsteps by exact I;
         discriminate Hsteps].
    destruct (populate_stage_run s s1 w w1 cur Hcur Htruthy Hpop)
      as (items & approved & _ & _ & Hs1 & Hw1).
    assert (Hst1 : template_stages s1 = Some L) by (subst s1; exact Hst).
    assert (Hcur1 : get_current_stage s1 = Some cur) by (subst s1; exact Hcur).
    cbn [successor] in Hsteps.
    rewrite (next_stage_run L i cur s1 w1 Hnd Hall Hst1 Hi Hcur1) in Hsteps.
    assert (Hdrop : drop i L = cur :: drop (S i) L) by (apply drop_S, Hi).
    assert (Hsent1 : activity_requests (sent w1) = cur :: activity_requests (sent w))
      by (subst w1; reflexivity).
    assert (Hkept : forall x, is_Some (default ∅ (stage_activities s) !! x) ->
                              is_Some (default ∅ (stage_activities s1) !! x)).
    { intros x Hx. subst s1. cbn. destruct (decide (cur = x)) as [-> | Hne].
      - rewrite lookup_insert_eq. eexists. reflexivity.
      - rewrite lookup_insert_ne by exact Hne. exact Hx. }
    assert (Hcursor : is_Some (default ∅ (stage_activities s1) !! cur)).
    { subst s1. cbn. rewrite lookup_insert_eq. eexists. reflexivity. }
    destruct (L !! (i + 1)) as [nxt|] eqn:Hnext.
    + destruct (IH (i + 1) nxt (with_current_stage (Some nxt) s1) s' w1 w')
        as (Hreq & Hst' & Hnew & Hold);
        [lia | exact Hst1 | exact Hnext | reflexivity | exact Hsteps |].
      replace (i + 1) with (S i) in * by lia.
      split; [| split; [exact Hst' | split]].
      * rewrite Hreq, Hsent1, Hdrop, reverse_cons, <- app_assoc. reflexivity.
      * intros x Hx. rewrite Hdrop in Hx.
        apply elem_of_cons in Hx as [-> | Hx]; [apply Hold, Hcursor | apply Hnew, Hx].
      * intros x Hx. apply Hold, Hkept, Hx.
    + apply lookup_ge_None in Hnext. assert (remaining = 0) as -> by lia.
      cbn [Nat.mul steps] in Hsteps. inversion Hsteps; subst s' w'.
      assert (Hnil : drop (S i) L = []) by (apply drop_ge; lia).
      split; [| split; [exact Hst1 | split]].
      * rewrite Hsent1, Hdrop, Hnil. reflexivity.
      * intros x Hx. rewrite Hdrop, Hnil in Hx.
        apply list_elem_of_singleton in Hx. subst x. exact Hcursor.
      * intros x Hx. apply Hkept, Hx.
Qed.

(** A run that gets through a sequence of distinct non-empty names asks
    the reasoner for proposals once per stage, in the order of the
    sequence, and ends with an entry in [stage_activities] for every
    stage: if the run started at [stage2_prepare_stages] has reached
    the end marker after [2 * n + 5] steps, the proposal requests it
    sent are exactly the [n] names, first to last. *)
Theorem each_stage_requested_once
    (L : list string) (s s' : State) (w w' : World) :
  NoDup L ->
  Forall (fun x => PyStr.truthy x = true) L ->
  template_stages s = Some L ->
  steps (2 * List.length L + 5) (At Node.stage2_prepare_stages s) w
  = (Finished s', w') ->
  activity_requests (sent w') = reverse L ++ activity_requests (sent w)
  /\ template_stages s' = Some L
  /\ forall x, x ∈ L -> is_Some (default ∅ (stage_activities s') !! x).
Proof.
  intros Hnd Hall Hst Hsteps.
  destruct L as [|x r] eqn:HL.
  - cbn [List.length Nat.mul Nat.add steps step node_fn] in Hsteps.
    unfold stage2_prepare_stages, ret in Hsteps. cbn [successor] in Hsteps.
    rewrite Hst in Hsteps. cbn in Hsteps. inversion Hsteps; subst.
    split; [reflexivity |]. split; [exact Hst |].
    intros y Hy. inversion Hy.
  - rewrite <- HL in *.
    replace (2 * List.length L + 5) with (1 + (2 * List.length L + (2 + 2)))
      in Hsteps by lia.
    rewrite steps_add in Hsteps. cbn [steps step node_fn] in Hsteps.
    unfold stage2_prepare_stages, ret in Hsteps. cbn [successor] in Hsteps.
    rewrite Hst in Hsteps. cbn [default from_option id] in Hsteps.
    rewrite steps_add in Hsteps.
    destruct (steps (2 * List.length L) _ w) as [c1 w1] eqn:Hloop in Hsteps.
    destruct (stage_loop_terminates L Hnd Hall (List.length L) 0 x
                (with_stage_activities (default ∅ (stage_activities s))
                   (with_current_stage (head L) s)) w)
      as (c & w2 & Hloop' & Hleft);
      [lia | exact Hst | rewrite HL; reflexivity | rewrite HL; reflexivity |].
    rewrite Hloop in Hloop'. inversion Hloop'; subst c w2.
    destruct Hleft as [(n & e & ->) | (s1 & -> & _ & _)].
    + rewrite steps_terminal in Hsteps by exact I. discriminate Hsteps.
    + destruct (stage_loop_requests L Hnd Hall (List.length L) 0 x
                  (with_stage_activities (default ∅ (stage_activities s))
                     (with_current_stage (head L) s)) s1 w w1)
        as (Hreq & Hst1 & Hnew & _);
        [lia | exact Hst | rewrite HL; reflexivity | rewrite HL; reflexivity
         | exact Hloop |].
      rewrite steps_add in Hsteps. cbn in Hsteps. inversion Hsteps; subst s' w'.
      split; [exact Hreq |]. split; [exact Hst1 |].
      intros y Hy. apply Hnew. exact Hy.
Qed.

(** ** The reasoner service *)

Lemma customize_ok (context style : pyval) (activities : list pyval) :
  ReasonerService.learning_style context = Ok style ->
  ReasonerService.customize context activities
  = Ok (map (ReasonerService.adapt style) activities).
Proof.
  intros Hstyle. induction activities as [|a rest IH]; [reflexivity |].
  cbn [ReasonerService.customize map]. rewrite Hstyle, IH. reflexivity.
Qed.

Lemma customize_err (context : pyval) (e : exn) (a : pyval) (rest : list pyval) :
  ReasonerService.learning_style context = Err e ->
  ReasonerService.customize context (a :: rest) = Err e.
Proof. intros Hstyle. cbn [ReasonerService.customize]. rewrite Hstyle. reflexivity. Qed.

Lemma stage_activities_for_shape (stage : string) :
  (List.length (ReasonerService.stage_activities_for stage) = 1
   \/ List.length (ReasonerService.stage_activities_for stage) = 2)
  /\ Forall (fun a => exists type title description duration materials adaptations,
                        a = ReasonerService.activity type title description
                              duration materials adaptations)
            (ReasonerService.stage_activities_for stage).
Proof.
  unfold ReasonerService.stage_activities_for.
  repeat case_match; (split; [cbn; auto |]);
    repeat (constructor; [eexists _, _, _, _, _, _; reflexivity |]);
    constructor.
Qed.

Lemma append_material_activity (material type title description duration : string)
    (materials adaptations : list string) :
  ReasonerService.append_material material
    (ReasonerService.activity type title description duration materials adaptations)
  = ReasonerService.activity type title description duration
      (materials ++ [material]) adaptations.
Proof.
  unfold ReasonerService.activity. cbn. rewrite map_app. reflexivity.
Qed.

Lemma adapt_activity (style : pyval) (type title description duration : string)
    (materials adaptations : list string) :
  exists materials',
    ReasonerService.adapt style
      (ReasonerService.activity type title description duration materials adaptations)
    = ReasonerService.activity type title description duration materials' adaptations.
Proof.
  unfold ReasonerService.adapt.
  destruct (ReasonerService.is_str style "visual");
    [| destruct (ReasonerService.is_str style "kinesthetic")];
    rewrite ?append_material_activity; eexists; reflexivity.
Qed.

Lemma approve_activities_total (activities approved : list pyval) (w : World) :
  Forall (fun a => exists d, a = PDict d) activities ->
  (forall j, j < List.length activities -> is_Some (stdin w (stdin_pos w + j))) ->
  exists result w', approve_activities activities approved w = (Ok result, w').
Proof.
  revert approved w. induction activities as [|a rest IH]; intros approved w Hall Hin.
  - eexists _, _. reflexivity.
  - inversion Hall as [|? ? [d ->] Hrest]; subst.
    cbn [approve_activities]. unfold bind, lift, input. cbn [Py.get].
    destruct (Hin 0) as [line Hline]; [cbn; lia |].
    rewrite Nat.add_0_r in Hline. rewrite Hline.
    apply IH; [exact Hrest |]. cbn [stdin stdin_pos]. intros j Hj.
    replace (S (stdin_pos w) + j) with (stdin_pos w + S j) by lia.
    apply Hin. cbn. lia.
Qed.

(** What the service proposes, the workflow can show: whenever
    [_generate_stage_activities] returns, it returns one or two
    activities, each a dict with a string [type] and a string [title];
    and on a terminal holding a line for each of them the approval loop
    of [stage2_populate_stage] goes through them without raising. *)
Theorem generated_activities_showable
    (stage : string) (context : pyval) (activities : list pyval) :
  ReasonerService._generate_stage_activities stage context = Ok activities ->
  (List.length activities = 1 \/ List.length activities = 2)
  /\ Forall showable activities
  /\ forall w : World,
       (forall j, j < List.length activities ->
                  is_Some (stdin w (stdin_pos w + j))) ->
       exists approved w', approve_activities activities [] w = (Ok approved, w').
Proof.
  unfold ReasonerService._generate_stage_activities. intros Hgen.
  destruct (stage_activities_for_shape stage) as [Hlen Hshape].
  destruct (ReasonerService.learning_style context) as [style|e] eqn:Hstyle.
  - rewrite (customize_ok context style _ Hstyle) in Hgen. inversion Hgen; subst.
    rewrite length_map.
    assert (Hshow : Forall showable
                      (map (ReasonerService.adapt style)
                           (ReasonerService.stage_activities_for stage))).
    { apply Forall_fmap. eapply Forall_impl; [exact Hshape |].
      intros a (type & title & description & duration & materials & adaptations & ->).
      cbn. destruct (adapt_activity style type title description duration
                       materials adaptations) as [materials' ->].
      eexists _, _, _. split; [reflexivity |]. split; reflexivity. }
    split; [exact Hlen |]. split; [exact Hshow |].
    intros w Hin. apply approve_activities_total.
    + eapply Forall_impl; [exact Hshow |]. intros a (d & _ & _ & -> & _).
      eexists. reflexivity.
    + intros j Hj. apply Hin. rewrite length_map in Hj. exact Hj.
  - destruct (ReasonerService.stage_activities_for stage) as [|a rest];
      [cbn in Hlen; lia |].
    rewrite (customize_err context e a rest Hstyle) in Hgen. discriminate Hgen.
Qed.

Lemma generated_activities_showable_witness :
  Forall showable
    (map (ReasonerService.adapt PNone)
         (ReasonerService.stage_activities_for "Engage")).
Proof.
  apply (generated_activities_showable "Engage" (PDict [])). reflexivity.
Defined.

(** [_generate_stage_activities] fails exactly on a context whose shape
    it does not expect: it returns unless the context is not a dict, or
    holds a [student_info] that is not a dict, and then it raises
    [AttributeError], whatever the stage. *)
Theorem generate_activities_fails_on_bad_context (stage : string) (context : pyval) :
  (exists activities,
     ReasonerService._generate_stage_activities stage context = Ok activities)
  <-> exists d,
        context = PDict d
        /\ (Py.assoc "student_info" d = None
            \/ exists info, Py.assoc "student_info" d = Some (PDict info)).
Proof.
  unfold ReasonerService._generate_stage_activities.
  destruct (stage_activities_for_shape stage) as [Hlen _].
  destruct (ReasonerService.stage_activities_for stage) as [|a rest] eqn:Hacts;
    [cbn in Hlen; lia |].
  split.
  - intros [activities Hgen].
    destruct (ReasonerService.learning_style context) as [style|e] eqn:Hstyle;
      [| rewrite (customize_err context e a rest Hstyle) in Hgen; discriminate Hgen].
    unfold ReasonerService.learning_style in Hstyle.
    destruct context as [| | | | | |d]; try discriminate Hstyle.
    exists d. split; [reflexivity |]. cbn [Py.get] in Hstyle.
    destruct (Py.assoc "student_info" d) as [info|]; [| left; reflexivity].
    right. cbn in Hstyle. destruct info; try discriminate Hstyle.
    eexists. reflexivity.
  - intros (d & -> & Hinfo).
    assert (Hstyle : exists style,
               ReasonerService.learning_style (PDict d) = Ok style).
    { unfold ReasonerService.learning_style. cbn [Py.get].
      destruct Hinfo as [-> | [info ->]]; eexists; reflexivity. }
    destruct Hstyle as [style Hstyle].
    rewrite (customize_ok _ style _ Hstyle). eexists. reflexivity.
Qed.

(** The learning style decides the last material of every proposed
    activity, and nothing else changes: for a visual learner each
    activity ends its materials with [Visual aids], for a kinesthetic
    one with [Hands-on materials]; for any other style, or none, the
    activities are the stock ones of the stage. *)
Theorem learning_style_sets_last_material
    (stage : string) (context style : pyval) :
  ReasonerService.learning_style context = Ok style ->
  exists activities,
    ReasonerService._generate_stage_activities stage context = Ok activities
    /\ (style = PStr "visual" ->
        Forall (fun a => last_material a = Some (PStr "Visual aids")) activities)
    /\ (style = PStr "kinesthetic" ->
        Forall (fun a => last_material a = Some (PStr "Hands-on materials"))
               activities)
    /\ (style <> PStr "visual" -> style <> PStr "kinesthetic" ->
        activities = ReasonerService.stage_activities_for stage).
Proof.
  intros Hstyle. unfold ReasonerService._generate_stage_activities.
  rewrite (customize_ok context style _ Hstyle). eexists. split; [reflexivity |].
  destruct (stage_activities_for_shape stage) as [_ Hshape].
  split; [| split].
  - intros ->. apply Forall_fmap. eapply Forall_impl; [exact Hshape |].
    intros a (type & title & description & duration & materials & adaptations & ->).
    unfold ReasonerService.adapt. cbn [ReasonerService.is_str String.eqb Ascii.eqb Bool.eqb].
    cbn [compose]. rewrite append_material_activity.
    unfold last_material, ReasonerService.activity. cbn.
    rewrite map_app. apply last_snoc.
  - intros ->. apply Forall_fmap. eapply Forall_impl; [exact Hshape |].
    intros a (type & title & description & duration & materials & adaptations & ->).
    unfold ReasonerService.adapt. cbn [ReasonerService.is_str String.eqb Ascii.eqb Bool.eqb].
    cbn [compose]. rewrite append_material_activity.
    unfold last_material, ReasonerService.activity. cbn.
    rewrite map_app. apply last_snoc.
  - intros Hv Hk.
    assert (Hid : forall a, ReasonerService.adapt style a = a).
    { intros a. unfold ReasonerService.adapt, ReasonerService.is_str.
      destruct style as [| | | |s| |]; try reflexivity.
      destruct (String.eqb s "visual") eqn:E1;
        [apply String.eqb_eq in E1; subst; contradiction |].
      destruct (String.eqb s "kinesthetic") eqn:E2;
        [apply String.eqb_eq in E2; subst; contradiction |].
      reflexivity. }
    rewrite (map_ext _ id) by exact Hid. apply map_id.
Qed.

Lemma learning_style_sets_last_material_witness :
  exists activities,
    ReasonerService._generate_stage_activities "Explore"
      (PDict [("student_info", PDict [("learning_style", PStr "visual")])])
    = Ok activities
    /\ Forall (fun a => last_material a = Some (PStr "Visual aids")) activities.
Proof.
  destruct (learning_style_sets_last_material "Explore"
              (PDict [("student_info", PDict [("learning_style", PStr "visual")])])
              (PStr "visual") eq_refl)
    as (activities & Hgen & Hvisual & _).
  exists activities. split; [exact Hgen | exact (Hvisual eq_refl)].
Defined.

(** The hard-coded sequences of [init_template] against the catalogue of
    the service: every template the workflow can choose is in the
    catalogue; for [5E], [7E] and [PBL] the fallback is the catalogue's
    sequence; for [DYNAMIC] the catalogue has four stages where the
    fallback has none.  Every catalogue sequence consists of distinct
    non-empty names. *)
Theorem fallback_against_catalogue :
  (forall t, t ∈ TEMPLATE_ENUM -> is_Some (catalogue_stages t))
  /\ (forall t, t ∈ ["5E"; "7E"; "PBL"] ->
                catalogue_stages t = Some (fallback_stages (Some t)))
  /\ catalogue_stages "DYNAMIC" = Some ["Assess"; "Adapt"; "Implement"; "Review"]
  /\ fallback_stages (Some "DYNAMIC") = []
  /\ (forall t L, catalogue_stages t = Some L ->
                  NoDup L /\ Forall (fun x => PyStr.truthy x = true) L).
Proof.
  split; [| split; [| split; [reflexivity | split; [reflexivity |]]]].
  - intros t Ht. unfold TEMPLATE_ENUM in Ht.
    repeat (apply elem_of_cons in Ht as [-> | Ht]; [eexists; reflexivity |]).
    apply elem_of_nil in Ht. contradiction.
  - intros t Ht.
    repeat (apply elem_of_cons in Ht as [-> | Ht]; [reflexivity |]).
    apply elem_of_nil in Ht. contradiction.
  - intros t L. unfold catalogue_stages, ReasonerService._initialize_templates.
    cbn [Py.assoc]. intros Hcat.
    repeat (destruct (String.eqb (PyStr.lower t) _);
            [vm_compute in Hcat; simplify_eq;
             split; [apply (bool_decide_unpack _); vm_compute; reflexivity
                    | repeat constructor] |]).
    discriminate Hcat.
Qed.

(** ** The fetching stages, case by case *)

(** [stage1_fetch_context] never raises and always sets
    [template_options].  Without a [student_id] key nothing is sent and
    nothing else changes.  A reply that is a JSON object overwrites all
    five context fields, taking an absent one as its default (the empty
    string, list or dict) even where the state held a value; any other
    outcome of the call leaves the five fields as they were. *)
Theorem fetch_context_outcomes (state : State) (w : World) :
  exists state' w',
    stage1_fetch_context state w = (Ok state', w')
    /\ template_options state' = Some TEMPLATE_OPTIONS
    /\ stdin_pos w' = stdin_pos w
    /\ (student_id state = None ->
        w' = w /\ state' = with_template_options TEMPLATE_OPTIONS state)
    /\ (forall sid, student_id state = Some sid ->
          sent w' = PostContext sid :: sent w
          /\ match http w (http_pos w) with
             | Body (PDict d) =>
                 student_info state' = Some (default (PDict []) (Py.assoc "student_info" d))
                 /\ grade state' = Some (default (PStr EmptyString) (Py.assoc "grade" d))
                 /\ subject state' = Some (default (PStr EmptyString) (Py.assoc "subject" d))
                 /\ slos state' = Some (default (PList []) (Py.assoc "slos" d))
                 /\ pre_slos state' = Some (default (PList []) (Py.assoc "pre_slos" d))
             | _ => state' = with_template_options TEMPLATE_OPTIONS state
             end).
Proof.
  unfold stage1_fetch_context, try_except, bind, lift, ret,
    ReasonerAPI.fetch_context, ReasonerAPI.call.
  destruct (student_id state) as [sid|].
  - destruct (http w (http_pos w)) as [e|body]; [| destruct body; cbn [Py.get]];
      eexists _, _;
      (split; [reflexivity |]); (split; [reflexivity |]);
      (split; [reflexivity |]); (split; [intros Hnone; discriminate Hnone |]);
      intros sid' Hsid; inversion Hsid; subst sid';
      (split; [reflexivity |]); repeat split.
  - eexists _, _.
    split; [reflexivity |]. split; [reflexivity |]. split; [reflexivity |].
    split; [intros _; split; reflexivity | intros sid' Hsid; discriminate Hsid].
Qed.

(** ** A run over no stages *)

(** With an empty (or missing) stage sequence the run from
    [stage2_prepare_stages] reaches the end marker in five steps without
    reading the terminal or calling the reasoner; the plan is flagged
    incomplete and its output lists no stage. *)
Theorem empty_sequence_run (state : State) (w : World) :
  default [] (template_stages state) = [] ->
  exists state' output,
    steps 5 (At Node.stage2_prepare_stages state) w = (Finished state', w)
    /\ is_complete state' = Some false
    /\ final_output state' = Some (Some output)
    /\ reported_stages output = [].
Proof.
  intros Hempty. cbn [steps step node_fn].
  unfold stage2_prepare_stages, ret. cbn [successor]. rewrite Hempty.
  cbn [head step node_fn]. unfold stage2_populate_stage, ret.
  cbn [get_current_stage current_stage with_current_stage with_stage_activities
       successor step node_fn].
  unfold stage2_next_stage, ret.
  cbn [get_current_stage current_stage with_current_stage with_stage_activities
       successor]. unfold should_continue_stages.
  cbn [get_current_stage current_stage with_current_stage stage_routes String.eqb
       Ascii.eqb Bool.eqb step node_fn].
  unfold stage3_check_completion, stage3_generate_output, ret.
  cbn [successor]. state_fields. rewrite Hempty.
  eexists _, _. split; [reflexivity |]. split; [reflexivity |].
  split; [reflexivity |].
  unfold reported_stages. cbn [Py.get Py.assoc String.eqb Ascii.eqb Bool.eqb from_option id].
  state_fields. rewrite Hempty. reflexivity.
Qed.

Lemma empty_sequence_run_witness :
  exists state' output,
    steps 5 (At Node.stage2_prepare_stages initial_state) timeout_world
    = (Finished state', timeout_world)
    /\ is_complete state' = Some false
    /\ final_output state' = Some (Some output)
    /\ reported_stages output = [].
Proof. apply (empty_sequence_run initial_state timeout_world). reflexivity. Defined.

Lemma each_stage_requested_once_witness :
  exists s' w',
    steps 15 (At Node.stage2_prepare_stages five_e_state) not_found_world
    = (Finished s', w')
    /\ activity_requests (sent w')
       = ["Evaluate"; "Elaborate"; "Explain"; "Explore"; "Engage"].
Proof.
  assert (Hrun : exists s' w',
             steps 15 (At Node.stage2_prepare_stages five_e_state) not_found_world
             = (Finished s', w')).
  { eexists _, _. vm_compute. reflexivity. }
  destruct Hrun as (s' & w' & Hrun). exists s', w'. split; [exact Hrun |].
  destruct (each_stage_requested_once (fallback_stages (Some "5E")) five_e_state s'
              not_found_world w') as (Hreq & _).
  - apply (bool_decide_unpack _). vm_compute. reflexivity.
  - repeat constructor.
  - reflexivity.
  - exact Hrun.
  - exact Hreq.
Defined.

(** * Properties on any text

    The properties of this part hold for every implementation [T] of
    Python's text methods, hence of [main.py] on any line the operator
    types. *)

(** ** The ASCII methods are an instance *)

Lemma approve_activities_at_ascii (activities approved : list pyval) (w : World) :
  Generic.approve_activities ascii_text activities approved w
  = approve_activities activities approved w.
Proof.
  revert approved w. induction activities as [|a rest IH]; intros approved w;
    [reflexivity |].
  cbn [Generic.approve_activities approve_activities]. unfold bind, lift, input.
  destruct (Py.get a "type" (PStr "Unknown")); [| reflexivity].
  destruct (Py.get a "title" (PStr "No title")); [| reflexivity].
  destruct (stdin w (stdin_pos w)); [| reflexivity]. apply IH.
Qed.

(** The stages defined for ASCII text are the generic ones at
    [ascii_text], and so are the runs. *)
Lemma node_fn_at_ascii (n : Node.t) (s : State) (w : World) :
  Generic.node_fn ascii_text n s w = node_fn n s w.
Proof.
  destruct n; reflexivity.
Qed.

Lemma steps_at_ascii (k : nat) (c : config) (w : World) :
  Generic.steps ascii_text k c w = steps k c w.
Proof.
  revert c w. induction k as [|k IH]; intros c w; [reflexivity |].
  cbn [Generic.steps steps].
  assert (Hstep : Generic.step ascii_text c w = step c w).
  { destruct c as [n s| |]; [| reflexivity | reflexivity].
    cbn [Generic.step step]. rewrite node_fn_at_ascii. reflexivity. }
  rewrite Hstep. destruct (step c w) as [c' w']. apply IH.
Qed.

Lemma lstrip_length (s : string) :
  String.length (PyStr.lstrip s) <= String.length s
  /\ (String.length (PyStr.lstrip s) = String.length s -> PyStr.lstrip s = s).
Proof.
  induction s as [|c r [IHle IHeq]]; [split; [reflexivity | reflexivity] |].
  cbn [PyStr.lstrip]. destruct (PyStr.is_space c).
  - cbn [String.length]. split; [lia | intros H; lia].
  - split; [reflexivity | reflexivity].
Qed.

Lemma rstrip_length (s : string) :
  String.length (PyStr.rstrip s) <= String.length s
  /\ (String.length (PyStr.rstrip s) = String.length s -> PyStr.rstrip s = s).
Proof.
  induction s as [|c r [IHle IHeq]]; [split; [reflexivity | reflexivity] |].
  cbn [PyStr.rstrip]. destruct (PyStr.rstrip r) as [|c' r'] eqn:E.
  - destruct (PyStr.is_space c); cbn [String.length] in *.
    + split; [lia | intros H; lia].
    + split; [lia |]. intros H. destruct r; [reflexivity | cbn in H; lia].
  - cbn [String.length] in *. split; [lia |]. intros H.
    rewrite <- IHeq by lia. reflexivity.
Qed.

Lemma strip_length_fixed (s : string) :
  String.length (PyStr.strip s) = String.length s -> PyStr.strip s = s.
Proof.
  unfold PyStr.strip. intros H.
  destruct (lstrip_length s) as [Hl Hleq].
  destruct (rstrip_length (PyStr.lstrip s)) as [Hr Hreq].
  rewrite Hreq by lia. apply Hleq. lia.
Qed.

Lemma upper_length (s : string) : String.length (PyStr.upper s) = String.length s.
Proof. induction s as [|c r IH]; [reflexivity |]. cbn. rewrite IH. reflexivity. Qed.

Lemma lstrip_upper (s : string) :
  PyStr.lstrip (PyStr.upper s) = PyStr.upper (PyStr.lstrip s).
Proof.
  induction s as [|c r IH]; [reflexivity |].
  cbn [PyStr.upper PyStr.lstrip]. rewrite is_space_upper_char.
  destruct (PyStr.is_space c); [exact IH | reflexivity].
Qed.

Lemma rstrip_upper (s : string) :
  PyStr.rstrip (PyStr.upper s) = PyStr.upper (PyStr.rstrip s).
Proof.
  induction s as [|c r IH]; [reflexivity |].
  cbn [PyStr.upper PyStr.rstrip]. rewrite IH, is_space_upper_char.
  destruct (PyStr.rstrip r); cbn [PyStr.upper]; [| reflexivity].
  destruct (PyStr.is_space c); reflexivity.
Qed.

(** The ASCII methods have the properties asked of Python's. *)
Lemma ascii_text_laws : python_text ascii_text.
Proof.
  split; cbn [t_strip t_upper ascii_text].
  - apply strip_strip.
  - intros c s H. unfold PyStr.strip in H.
    apply has_char_rstrip, has_char_lstrip in H. exact H.
  - intros s H. apply strip_length_fixed.
    unfold PyStr.strip in H. rewrite lstrip_upper, rstrip_upper in H.
    fold (PyStr.strip s) in H. apply (f_equal String.length) in H.
    rewrite !upper_length in H. exact H.
  - reflexivity.
  - reflexivity.
Qed.

(** ** The template choice on any text *)

Lemma choose_template_run_with (T : PyText) (state : State) (w : World) d line :
  default (PDict []) (template_recommendation state) = PDict d ->
  stdin w (stdin_pos w) = Some line ->
  Generic.stage1_choose_template T state w =
    (match normalize_choice_with T d line with
     | Ok c => Ok (with_chosen_template (Some c) state)
     | Err e => Err e
     end,
     mkWorld (stdin w) (S (stdin_pos w)) (http w) (templates w)
             (http_pos w) (sent w)).
Proof.
  intros Hrec Hline.
  unfold Generic.stage1_choose_template, normalize_choice_with. rewrite Hrec.
  unfold bind, lift, ret, input. cbn [Py.get]. rewrite Hline.
  destruct (PyStr.truthy (t_strip T line)).
  - cbn [Generic.py_upper]. reflexivity.
  - cbn [Py.get]. destruct (Generic.py_upper T _); reflexivity.
Qed.







Lemma in_enum_ascii_clean (T : PyText) (u : string) :
  python_text T -> in_enum u = true -> t_strip T u = u.
Proof.
  intros HT Hu. apply in_enum_spec in Hu. unfold TEMPLATE_ENUM in Hu.
  repeat (apply elem_of_cons in Hu as [-> | Hu];
          [rewrite (strip_ascii T HT) by reflexivity; reflexivity |]).
  apply elem_of_nil in Hu. destruct Hu.
Qed.

Lemma in_enum_upper_truthy (T : PyText) (s : string) :
  python_text T -> in_enum (t_upper T s) = true -> PyStr.truthy s = true.
Proof.
  intros HT Hs. destruct s; [| reflexivity].
  rewrite (upper_ascii T HT) in Hs by reflexivity. discriminate Hs.
Qed.

(** C10 as the code has it.  Let the text methods be Python's, let
    [template_recommendation] be absent or a dict and let a line be at
    the terminal.  (1) A line whose upper-casing is one of [5E], [7E],
    [PBL], [DYNAMIC] sets [chosen_template] to that upper-casing.
    (2) So does a line whose stripped form has such an upper-casing.
    (3) On a line that is empty once stripped, a recommended template
    that is a string is upper-cased -- not stripped -- and validated:
    [chosen_template] is its upper-casing when that is in the enum and
    [5E] otherwise.  (4) On such a line and a recommendation without a
    [template] entry, [chosen_template] is [5E].  (5) On such a line and
    a recommended template that is not a string, the stage raises
    [AttributeError]. *)
Theorem choose_template_normalizes (T : PyText) (state : State) (w : World)
    d (line : string) :
  python_text T ->
  default (PDict []) (template_recommendation state) = PDict d ->
  stdin w (stdin_pos w) = Some line ->
  let w' := mkWorld (stdin w) (S (stdin_pos w)) (http w) (templates w)
                    (http_pos w) (sent w) in
  (in_enum (t_upper T line) = true ->
     Generic.stage1_choose_template T state w
     = (Ok (with_chosen_template (Some (t_upper T line)) state), w'))
  /\ (in_enum (t_upper T (t_strip T line)) = true ->
        Generic.stage1_choose_template T state w
        = (Ok (with_chosen_template (Some (t_upper T (t_strip T line))) state), w'))
  /\ (PyStr.truthy (t_strip T line) = false ->
        forall t, Py.assoc "template" d = Some (PStr t) ->
        Generic.stage1_choose_template T state w
        = (Ok (with_chosen_template
                 (Some (if in_enum (t_upper T t) then t_upper T t else "5E"))
                 state), w'))
  /\ (PyStr.truthy (t_strip T line) = false ->
        Py.assoc "template" d = None ->
        Generic.stage1_choose_template T state w
        = (Ok (with_chosen_template (Some "5E") state), w'))
  /\ (PyStr.truthy (t_strip T line) = false ->
        forall v, Py.assoc "template" d = Some v ->
        (forall t, v <> PStr t) ->
        Generic.stage1_choose_template T state w = (Err AttributeError, w')).
Proof.
  intros HT Hrec Hline w'.
  pose proof (choose_template_run_with T state w d line Hrec Hline) as Hrun.
  fold w' in Hrun.
  assert (Hstripped : in_enum (t_upper T (t_strip T line)) = true ->
            Generic.stage1_choose_template T state w
            = (Ok (with_chosen_template (Some (t_upper T (t_strip T line))) state), w')).
  { intros Hin. rewrite Hrun. unfold normalize_choice_with.
    rewrite (in_enum_upper_truthy T _ HT Hin). cbn [Generic.py_upper].
    rewrite Hin. reflexivity. }
  split; [| split; [exact Hstripped | split; [| split]]].
  - intros Hin.
    assert (Hclean : t_strip T line = line).
    { apply (upper_keeps_margins T HT), (in_enum_ascii_clean T _ HT Hin). }
    rewrite Hclean in Hstripped. apply Hstripped, Hin.
  - intros Hblank t Ht. rewrite Hrun. unfold normalize_choice_with.
    rewrite Hblank. cbn [Py.get]. rewrite Ht. reflexivity.
  - intros Hblank Hnone. rewrite Hrun. unfold normalize_choice_with.
    rewrite Hblank. cbn [Py.get]. rewrite Hnone.
    cbn [from_option Generic.py_upper].
    rewrite (upper_ascii T HT) by reflexivity. reflexivity.
  - intros Hblank v Hv Hnot. rewrite Hrun. unfold normalize_choice_with.
    rewrite Hblank. cbn [Py.get]. rewrite Hv. cbn [from_option id].
    destruct v; try reflexivity. destruct (Hnot s). reflexivity.
Qed.

Lemma choose_template_normalizes_witness :
  Generic.stage1_choose_template ascii_text montessori_state
    (mkWorld (typed [" pbl "] None) 0 (http timeout_world)
             (templates timeout_world) 0 [])
  = (Ok (with_chosen_template (Some "PBL") montessori_state),
     mkWorld (typed [" pbl "] None) 1 (http timeout_world)
             (templates timeout_world) 0 []).
Proof.
  refine (proj1 (proj2 (choose_template_normalizes ascii_text montessori_state
            (mkWorld (typed [" pbl "] None) 0 (http timeout_world)
                     (templates timeout_world) 0 [])
            [("template", PStr "Montessori"); ("confidence", PInt 1)] " pbl "
            ascii_text_laws eq_refl eq_refl)) eq_refl).
Defined.


(** ** Replacing the stage sequence, on any text *)

Lemma steps_add_with (T : PyText) (a b : nat) (c : config) (w : World) :
  Generic.steps T (a + b) c w
  = let '(c', w') := Generic.steps T a c w in Generic.steps T b c' w'.
Proof.
  revert c w. induction a as [|a IH]; intros c w; [reflexivity |].
  cbn [Nat.add Generic.steps]. destruct (Generic.step T c w) as [c1 w1]. apply IH.
Qed.

Lemma steps_terminal_with (T : PyText) (k : nat) (c : config) (w : World) :
  terminal c -> Generic.steps T k c w = (c, w).
Proof.
  intros Hc. induction k as [|k IH]; [reflexivity |].
  destruct c; [contradiction | exact IH | exact IH].
Qed.

Lemma approve_activities_sent_with (T : PyText) (activities approved : list pyval)
    (w : World) r w' :
  Generic.approve_activities T activities approved w = (r, w') -> sent w' = sent w.
Proof.
  revert approved w. induction activities as [|a rest IH]; intros approved w H.
  - inversion H. reflexivity.
  - cbn [Generic.approve_activities] in H. unfold bind, lift, input in H.
    repeat case_match; simplify_eq; try reflexivity.
    all: match goal with Hrec : Generic.approve_activities _ _ _ _ = _ |- _ =>
      apply IH in Hrec; exact Hrec end.
Qed.

(** What a round of [stage2_populate_stage] at a non-empty cursor does:
    one proposal request for the cursor, and on return an entry under
    the cursor with everything else as it was. *)
Lemma populate_stage_round (T : PyText) (state : State) (w : World) (cur : string) r w' :
  get_current_stage state = Some cur ->
  PyStr.truthy cur = true ->
  Generic.stage2_populate_stage T state w = (r, w') ->
  sent w' = PostActivities cur (PDict (("stage", PStr cur) :: context_fields state))
            :: sent w
  /\ forall state', r = Ok state' ->
       exists approved,
         state' = with_stage_activities
                    (<[cur := approved]> (default ∅ (stage_activities state))) state.
Proof.
  intros Hcur Htruthy H. unfold Generic.stage2_populate_stage in H.
  rewrite Hcur, Htruthy in H. cbn [negb] in H.
  unfold try_except, bind, lift, ret, ReasonerAPI.propose_activities,
    ReasonerAPI.call in H.
  split.
  - repeat case_match; simplify_eq; cbn [sent]; try reflexivity;
      match goal with Hrec : Generic.approve_activities _ _ _ _ = _ |- _ =>
        apply approve_activities_sent_with in Hrec; exact Hrec end.
  - intros state' ->. repeat case_match; simplify_eq; eexists; reflexivity.
Qed.




(** [stage2_prepare_stages] puts the cursor on the first name. *)
Lemma prepare_stages_step (T : PyText) L (state : State) (w : World) :
  template_stages state = Some L ->
  Generic.step T (At Node.stage2_prepare_stages state) w
  = (At Node.stage2_populate_stage
       (with_stage_activities (default ∅ (stage_activities state))
          (with_current_stage (head L) state)), w).
Proof.
  intros Hst. cbn [Generic.step Generic.node_fn]. unfold stage2_prepare_stages, ret.
  rewrite Hst. reflexivity.
Qed.


Lemma index_lookup (L : list string) (x : string) (idx : nat) :
  index x L = Some idx -> L !! idx = Some x.
Proof.
  revert idx. induction L as [|y r IH]; intros idx H; [discriminate H |].
  cbn [index] in H. destruct (String.eqb y x) eqn:E.
  - inversion H. apply String.eqb_eq in E. subst. reflexivity.
  - destruct (index x r) as [j|]; [| discriminate H]. inversion H. subst.
    cbn. apply IH. reflexivity.
Qed.



(** [stage2_next_stage] and the conditional edge move the cursor to the
    name after the first occurrence of the current one, and leave the
    loop when there is none. *)
Lemma next_stage_step (T : PyText) (L : list string) (cur : string)
    (s : State) (w : World) :
  Forall (fun x => PyStr.truthy x = true) L ->
  template_stages s = Some L ->
  get_current_stage s = Some cur ->
  PyStr.truthy cur = true ->
  Generic.step T (At Node.stage2_next_stage s) w
  = (match following L cur with
     | Some nxt => At Node.stage2_populate_stage (with_current_stage (Some nxt) s)
     | None => At Node.stage3_check_completion (with_current_stage None s)
     end, w).
Proof.
  intros Hall Hst Hcur Htruthy.
  cbn [Generic.step Generic.node_fn]. unfold stage2_next_stage, following.
  rewrite Hcur, Hst, Htruthy. cbn [default from_option id].
  destruct (index cur L) as [idx|] eqn:Hidx; [| reflexivity].
  destruct (L !! (idx + 1)) as [nxt|] eqn:Hnext.
  - assert (Hlt : (Z.of_nat idx <? Z.of_nat (List.length L) - 1)%Z = true).
    { apply Z.ltb_lt. apply lookup_lt_Some in Hnext. lia. }
    assert (Hn : PyStr.truthy nxt = true).
    { rewrite Forall_forall in Hall. apply Hall.
      eapply list_elem_of_lookup_2. exact Hnext. }
    rewrite Hlt. unfold ret. cbn [successor].
    unfold should_continue_stages, get_current_stage.
    cbn [current_stage with_current_stage]. rewrite Hn. reflexivity.
  - assert (Hge : (Z.of_nat idx <? Z.of_nat (List.length L) - 1)%Z = false).
    { apply Z.ltb_ge. apply lookup_ge_None in Hnext. lia. }
    rewrite Hge. reflexivity.
Qed.

(** One step of the engine at [stage2_populate_stage] with a non-empty
    cursor. *)
Lemma populate_stage_step (T : PyText) (s : State) (w : World) (cur : string) :
  get_current_stage s = Some cur ->
  PyStr.truthy cur = true ->
  (exists e w', Generic.step T (At Node.stage2_populate_stage s) w
                = (Failed Node.stage2_populate_stage e, w'))
  \/ (exists approved w',
        Generic.step T (At Node.stage2_populate_stage s) w
        = (At Node.stage2_next_stage
             (with_stage_activities
                (<[cur := approved]> (default ∅ (stage_activities s))) s), w')
        /\ sent w' = PostActivities cur (PDict (("stage", PStr cur) :: context_fields s))
                     :: sent w).
Proof.
  intros Hcur Htruthy. cbn [Generic.step Generic.node_fn].
  destruct (Generic.stage2_populate_stage T s w) as [r w'] eqn:Hrun.
  destruct (populate_stage_round T s w cur r w' Hcur Htruthy Hrun) as [Hsent Hok].
  destruct r as [s'|e].
  - right. destruct (Hok s' eq_refl) as [approved ->].
    exists approved, w'. split; [reflexivity | exact Hsent].
  - left. exists e, w'. reflexivity.
Qed.


Lemma parse_stage_list_truthy (T : PyText) (line : string) :
  Forall (fun x => PyStr.truthy x = true) (Generic.parse_stage_list T line).
Proof.
  unfold Generic.parse_stage_list. rewrite Forall_forall. intros name Hin.
  apply list_elem_of_fmap in Hin as (raw & -> & Hraw).
  apply list_elem_of_filter in Hraw as [Hkept _].
  apply Is_true_true in Hkept. exact Hkept.
Qed.




(** ** The names taken from the typed list *)

(** Let the text methods be Python's.  Every stage name that
    [stage2_template_adjustment] takes from the line typed is non-empty,
    is left as it is by a further [strip] (it has no white space at
    either end) and contains no comma. *)
Theorem parsed_stage_names_clean (T : PyText) (line name : string) :
  python_text T ->
  name ∈ Generic.parse_stage_list T line ->
  PyStr.truthy name = true
  /\ t_strip T name = name
  /\ has_char "," name = false.
Proof.
  intros HT Hin. split.
  - pose proof (parse_stage_list_truthy T line) as Hall.
    rewrite Forall_forall in Hall. apply Hall, Hin.
  - unfold Generic.parse_stage_list in Hin.
    apply list_elem_of_fmap in Hin as (f & -> & Hf).
    apply list_elem_of_filter in Hf as [_ Hf].
    split; [apply (strip_twice T HT) |].
    apply not_true_is_false. intros Hc.
    apply (strip_removes T HT) in Hc.
    rewrite (split_fields_lack_sep _ _ _ Hf) in Hc. discriminate Hc.
Qed.

Lemma parsed_stage_names_clean_witness :
  PyStr.truthy "Build" = true
  /\ t_strip ascii_text "Build" = "Build"
  /\ has_char "," "Build" = false.
Proof.
  apply (parsed_stage_names_clean ascii_text "Hook, Build ,,Reflect" "Build"
           ascii_text_laws).
  vm_compute. apply elem_of_cons. right. apply elem_of_cons. left. reflexivity.
Defined.

(** ** Runs that are sure to end, on any text *)

Lemma steps_terminal_later (T : PyText) (k k' : nat) (c c' : config) (w w' : World) :
  Generic.steps T k c w = (c', w') -> terminal c' -> k <= k' ->
  Generic.steps T k' c w = (c', w').
Proof.
  intros Hsteps Hc Hle. replace k' with (k + (k' - k)) by lia.
  rewrite steps_add_with, Hsteps. apply steps_terminal_with, Hc.
Qed.

(** With the cursor on the [i]-th of the [i + remaining] names of a
    duplicate-free sequence, the loop is left within [2 * remaining]
    steps. *)
Lemma stage_loop_terminates_with (T : PyText) (L : list string) :
  NoDup L ->
  Forall (fun x => PyStr.truthy x = true) L ->
  forall (remaining i : nat) (cur : string) (s : State) (w : World),
    List.length L = i + remaining ->
    template_stages s = Some L ->
    L !! i = Some cur ->
    get_current_stage s = Some cur ->
    exists c w',
      Generic.steps T (2 * remaining) (At Node.stage2_populate_stage s) w = (c, w')
      /\ loop_left L c.
Proof.
  intros Hnd Hall. induction remaining as [|remaining IH];
    intros i cur s w Hlen Hst Hi Hcur.
  - apply lookup_lt_Some in Hi. lia.
  - assert (Htruthy : PyStr.truthy cur = true).
    { rewrite Forall_forall in Hall. apply Hall.
      eapply list_elem_of_lookup_2. exact Hi. }
    replace (2 * S remaining) with (2 + 2 * remaining) by lia.
    rewrite steps_add_with. cbn [Generic.steps].
    destruct (populate_stage_step T s w cur Hcur Htruthy)
      as [(e & w1 & Hpop) | (approved & w1 & Hpop & _)]; rewrite Hpop.
    + cbn [Generic.step]. rewrite steps_terminal_with by exact I.
      eexists _, _. split; [reflexivity |]. left. eauto.
    + rewrite (next_stage_step T L cur
                 (with_stage_activities
                    (<[cur := approved]> (default ∅ (stage_activities s))) s)
                 w1 Hall Hst Hcur Htruthy).
      unfold following. rewrite (index_NoDup L i cur Hnd Hi).
      destruct (L !! (i + 1)) as [nxt|] eqn:Hnext.
      * apply (IH (i + 1) nxt); [lia | exact Hst | exact Hnext | reflexivity].
      * apply lookup_ge_None in Hnext. assert (remaining = 0) as -> by lia.
        eexists _, _. split; [reflexivity |]. right.
        eexists. split; [reflexivity |]. split; [reflexivity | exact Hst].
Qed.

(** From [stage2_prepare_stages], a run over a duplicate-free sequence
    of non-empty names ends, with the end marker reached or a node
    failed, within [2 * length L + 5] steps, and stays there. *)
Lemma prepared_run_ends (T : PyText) (L : list string) (s : State) (w : World)
    (k : nat) :
  NoDup L ->
  Forall (fun x => PyStr.truthy x = true) L ->
  template_stages s = Some L ->
  2 * List.length L + 5 <= k ->
  exists c w',
    Generic.steps T k (At Node.stage2_prepare_stages s) w = (c, w')
    /\ ((exists n e, c = Failed n e)
        \/ exists s', c = Finished s' /\ template_stages s' = Some L
                      /\ is_Some (final_output s')).
Proof.
  intros Hnd Hall Hst Hk.
  assert (Hrun : exists c w',
            Generic.steps T (2 * List.length L + 5)
              (At Node.stage2_prepare_stages s) w = (c, w')
            /\ ((exists n e, c = Failed n e)
                \/ exists s', c = Finished s' /\ template_stages s' = Some L
                              /\ is_Some (final_output s'))).
  { destruct L as [|x r] eqn:HL.
    - cbn [List.length Nat.mul Nat.add Generic.steps Generic.step Generic.node_fn].
      unfold stage2_prepare_stages, ret. cbn [successor]. rewrite Hst. cbn.
      eexists _, _. split; [reflexivity |]. right.
      eexists. split; [reflexivity |]. split; eauto.
    - rewrite <- HL in *.
      replace (2 * List.length L + 5) with (1 + (2 * List.length L + (2 + 2))) by lia.
      rewrite steps_add_with. cbn [Generic.steps].
      rewrite (prepare_stages_step T L s w Hst). rewrite steps_add_with.
      destruct (stage_loop_terminates_with T L Hnd Hall (List.length L) 0 x
                  (with_stage_activities (default ∅ (stage_activities s))
                     (with_current_stage (head L) s)) w)
        as (c & w' & -> & [(n & e & ->) | (s' & -> & _ & Hst')]);
        [lia | exact Hst | rewrite HL; reflexivity | rewrite HL; reflexivity | |].
      + rewrite steps_terminal_with by exact I.
        eexists _, _. split; [reflexivity |]. left. eauto.
      + rewrite steps_add_with. cbn. eexists _, _. split; [reflexivity |]. right.
        eexists. split; [reflexivity |]. split; eauto. }
  destruct Hrun as (c & w' & Hsteps & Hend). exists c, w'. split; [| exact Hend].
  apply (steps_terminal_later T _ k _ _ _ _ Hsteps); [| exact Hk].
  destruct Hend as [(n & e & ->) | (s' & -> & _)]; exact I.
Qed.

(** Whatever Python's text methods do: after the answer [y] at the
    adjustment prompt and a line whose names, once split and stripped,
    are pairwise different, the run started at
    [stage2_template_adjustment] has, within [2 * n + 6] engine steps
    for [n] names, either failed at a node or reached the end marker
    with the typed list as [template_stages] and a [final_output]. *)
Theorem adjusted_run_ends (T : PyText)
    (state : State) (w : World) (answer line : string) :
  stdin w (stdin_pos w) = Some answer ->
  t_lower T (t_strip T answer) = "y" ->
  stdin w (S (stdin_pos w)) = Some line ->
  NoDup (Generic.parse_stage_list T line) ->
  exists c w',
    Generic.steps T (2 * List.length (Generic.parse_stage_list T line) + 6)
      (At Node.stage2_template_adjustment state) w = (c, w')
    /\ ((exists n e, c = Failed n e)
        \/ exists s', c = Finished s'
                      /\ template_stages s' = Some (Generic.parse_stage_list T line)
                      /\ is_Some (final_output s')).
Proof.
  intros Hanswer Hyes Hline Hnd.
  replace (2 * List.length (Generic.parse_stage_list T line) + 6)
    with (1 + (2 * List.length (Generic.parse_stage_list T line) + 5)) by lia.
  rewrite steps_add_with. cbn [Generic.steps Generic.step Generic.node_fn].
  unfold Generic.stage2_template_adjustment, bind, input, ret.
  rewrite Hanswer, Hyes. cbn [String.eqb Ascii.eqb Bool.eqb stdin stdin_pos].
  rewrite Hline. cbn [successor].
  apply prepared_run_ends; [exact Hnd | | reflexivity | lia].
  apply parse_stage_list_truthy.
Qed.

Lemma adjusted_run_ends_witness :
  exists c w',
    Generic.steps ascii_text 12
      (At Node.stage2_template_adjustment five_e_state) adjusting_world
    = (c, w')
    /\ ((exists n e, c = Failed n e)
        \/ exists s', c = Finished s'
                      /\ template_stages s' = Some ["Hook"; "Build"; "Reflect"]
                      /\ is_Some (final_output s')).
Proof.
  apply (adjusted_run_ends ascii_text five_e_state adjusting_world
           " Y " "Hook, Build ,,Reflect"); try reflexivity.
  apply (bool_decide_unpack _). vm_compute. reflexivity.
Defined.

(** When the operator declines the adjustment, a run over distinct
    non-empty names that stands at [stage2_template_approval] has ended
    after [2 * length L + 7] steps. *)
Lemma declined_run_ends (T : PyText) (L : list string) (s : State) (w : World)
    (k : nat) :
  NoDup L ->
  Forall (fun x => PyStr.truthy x = true) L ->
  template_stages s = Some L ->
  (forall l, stdin w (S (stdin_pos w)) = Some l ->
             t_lower T (t_strip T l) <> "y") ->
  2 * List.length L + 7 <= k ->
  exists c w',
    Generic.steps T k (At Node.stage2_template_approval s) w = (c, w')
    /\ ((exists n e, c = Failed n e)
        \/ exists s', c = Finished s' /\ template_stages s' = Some L
                      /\ is_Some (final_output s')).
Proof.
  intros Hnd Hall Hst Hno Hk.
  destruct k as [|[|k]]; [lia | lia |].
  cbn [Generic.steps Generic.step Generic.node_fn].
  unfold Generic.stage2_template_approval, bind, input, ret.
  destruct (stdin w (stdin_pos w)) as [l0|];
    [| cbn [Generic.steps Generic.step];
       rewrite steps_terminal_with by exact I; eexists _, _;
       split; [reflexivity | left; eauto]].
  cbn [successor Generic.step Generic.node_fn].
  unfold Generic.stage2_template_adjustment, bind, input, ret.
  cbn [stdin stdin_pos].
  destruct (stdin w (S (stdin_pos w))) as [l1|] eqn:Hl1;
    [| cbn [Generic.steps Generic.step];
       rewrite steps_terminal_with by exact I; eexists _, _;
       split; [reflexivity | left; eauto]].
  destruct (String.eqb (t_lower T (t_strip T l1)) "y") eqn:Hy.
  - apply String.eqb_eq in Hy. exfalso. exact (Hno l1 eq_refl Hy).
  - cbn [successor]. apply prepared_run_ends; [exact Hnd | exact Hall | exact Hst | lia].
Qed.

(** Whatever Python's text methods do: with the template request
    failing and an answer at the adjustment prompt that, stripped and
    lower-cased, is not [y], the run from [init_template] is over within
    22 engine steps, whatever template was chosen and whatever else the
    operator types or the reasoner answers: the hard-coded sequences
    have at most seven names, all different. *)
Theorem fallback_run_ends (T : PyText) (state : State) (w : World) (e : exn) :
  templates w (http_pos w) = TRaises e ->
  (forall l, stdin w (S (stdin_pos w)) = Some l ->
             t_lower T (t_strip T l) <> "y") ->
  exists c w',
    Generic.steps T 22 (At Node.init_template state) w = (c, w')
    /\ ((exists n e', c = Failed n e')
        \/ exists s', c = Finished s' /\ is_Some (final_output s')
                      /\ template_stages s'
                         = Some (fallback_stages
                                   (match chosen_template state with
                                    | Some v => v
                                    | None => Some "5E"
                                    end))).
Proof.
  intros Htpl Hno.
  set (template := match chosen_template state with
                   | Some v => v
                   | None => Some "5E"
                   end).
  destruct (fallback_stages_distinct template) as (Hnd & Hall & Hlen).
  assert (Hinit : exists w1,
             Generic.step T (At Node.init_template state) w
             = (At Node.stage2_template_approval
                   (with_template_stages (fallback_stages template) state), w1)
             /\ stdin w1 = stdin w /\ stdin_pos w1 = stdin_pos w).
  { cbn [Generic.step Generic.node_fn].
    unfold Generic.init_template, try_except, bind, ret, raise,
      Generic.fetch_template.
    fold template. destruct template as [name|]; [rewrite Htpl |];
      eexists; (split; [reflexivity | split; reflexivity]). }
  destruct Hinit as (w1 & Hstep & Hin & Hpos).
  change 22 with (S 21). cbn [Generic.steps]. rewrite Hstep.
  destruct (declined_run_ends T (fallback_stages template)
              (with_template_stages (fallback_stages template) state) w1 21
              Hnd Hall eq_refl) as (c & w' & Hsteps & Hend).
  - rewrite Hin, Hpos. exact Hno.
  - lia.
  - exists c, w'. split; [exact Hsteps |].
    destruct Hend as [Hfail | (s' & -> & Hst & Hout)]; [left; exact Hfail |].
    right. exists s'. repeat split; assumption.
Qed.

Lemma fallback_run_ends_witness :
  exists c w',
    Generic.steps ascii_text 22
      (At Node.init_template (with_chosen_template (Some "7E") initial_state))
      not_found_world = (c, w')
    /\ ((exists n e', c = Failed n e')
        \/ exists s', c = Finished s' /\ is_Some (final_output s')
                      /\ template_stages s' = Some (fallback_stages (Some "7E"))).
Proof.
  apply (fallback_run_ends ascii_text
           (with_chosen_template (Some "7E") initial_state)
           not_found_world (HTTPError 500)); [reflexivity |].
  intros l Hl. inversion Hl. discriminate.
Defined.

(** ** Fetching the template, on any text *)

(** Whatever Python's text methods do, and for replies whose [stages],
    when present, is a list of strings: [init_template] never raises.
    For a chosen template it asks the service for the lower-cased name;
    a reply that is a JSON object decides the sequence even when it has
    no [stages] (the sequence is then empty, not the hard-coded one);
    only a failing call gives the hard-coded sequence.  When
    [chosen_template] holds [None] nothing is sent and the sequence is
    empty. *)
Theorem init_template_outcomes (T : PyText) (state : State) (w : World) :
  let template := match chosen_template state with
                  | Some v => v
                  | None => Some "5E"
                  end in
  exists stages w',
    Generic.init_template T state w = (Ok (with_template_stages stages state), w')
    /\ stdin_pos w' = stdin_pos w
    /\ match template with
       | None => w' = w /\ stages = []
       | Some name =>
           sent w' = GetTemplate (t_lower T name) :: sent w
           /\ stages = match templates w (http_pos w) with
                       | TBody (Some l) => l
                       | TBody None => []
                       | TRaises _ => fallback_stages template
                       end
       end.
Proof.
  intros template.
  unfold Generic.init_template, try_except, bind, ret, raise, Generic.fetch_template.
  fold template. destruct template as [name|].
  - destruct (templates w (http_pos w)) as [e|[l|]];
      eexists _, _; (split; [reflexivity |]); (split; [reflexivity |]);
      split; reflexivity.
  - eexists _, _. split; [reflexivity |]. split; [reflexivity |].
    split; reflexivity.
Qed.
